(** * Satsiber data-centre drawings: the drawing toolkit of
      [generate_pdf.py] and [generate_dxf.py]

    Coordinates, sizes and line widths are Python floats in the source; they
    are modelled here as real numbers (the usual idealisation: arithmetic
    without rounding).  Colour indices and DXF line weights are Python ints
    and are modelled as [Z].

    The source has no [raise] statement and the library calls it makes accept
    every float, so each helper is a total function of the sheet it draws
    on. *)

From Stdlib Require Import Reals Lra List String Ascii ZArith Bool Arith Lia.
From Stdlib Require Import DecimalString.
Import ListNotations.

Open Scope string_scope.
Open Scope list_scope.
Open Scope R_scope.

(** ** Shared helpers *)

(** Python's [enumerate(xs, start)]. *)
Fixpoint enumerate_from {A : Type} (start : nat) (xs : list A) : list (nat * A) :=
  match xs with
  | [] => []
  | x :: rest => (start, x) :: enumerate_from (S start) rest
  end.

Definition enumerate {A : Type} (xs : list A) : list (nat * A) :=
  enumerate_from 0 xs.

(** Iterating over a Python string yields its one-character strings. *)
Fixpoint chars (s : string) : list string :=
  match s with
  | EmptyString => []
  | String a rest => String a EmptyString :: chars rest
  end.

(** [needle in haystack] on Python strings. *)
Fixpoint contains (haystack needle : string) : bool :=
  prefix needle haystack
  || match haystack with
     | EmptyString => false
     | String _ rest => contains rest needle
     end.

(** [s.replace(old, new)]: every non-overlapping occurrence, left to right. *)
Fixpoint replace_fuel (fuel : nat) (old new s : string) : string :=
  match fuel with
  | O => s
  | S fuel' =>
      match s with
      | EmptyString => EmptyString
      | String a rest =>
          if prefix old s
          then (new ++ replace_fuel fuel'
                         old new
                         (substring (String.length old)
                                    (String.length s - String.length old) s))%string
          else String a (replace_fuel fuel' old new rest)
      end
  end.

Definition replace (old new s : string) : string :=
  match old with
  | EmptyString => s
  | _ => replace_fuel (String.length s) old new s
  end.

(** [str(n)] and [f"{n:02d}"] for a non-negative int. *)
Definition str_of_nat (n : nat) : string :=
  NilEmpty.string_of_uint (Nat.to_uint n).

Definition fmt_02d (n : nat) : string :=
  let s := str_of_nat n in
  if (String.length s <? 2)%nat then ("0" ++ s)%string else s.

(** ** The PDF renderer ([generate_pdf.py]) *)

Module Pdf.

(** *** The canvas

    The part of reportlab's [Canvas] that the source drives: a graphics state
    set by the [set...] calls, a stack for [saveState]/[restoreState], and
    the page, to which every painting call adds one mark carrying the style
    in force when it was painted. *)

Inductive color : Type :=
| HexColor (hex : string)
| black
| white.

(** [setDash(array, phase)]; [setDash()] is the solid line. *)
Inductive dash_pattern : Type :=
| Solid
| Dashed (array phase : R).

Inductive transform : Type :=
| Translate (dx dy : R)
| Rotate (degrees : R).

Inductive text_anchor : Type :=
| AnchorLeft      (* drawString *)
| AnchorCentre    (* drawCentredString *)
| AnchorRight.    (* drawRightString *)

Record gstate : Type := mkGstate {
  strokeColor : color;
  fillColor : color;
  lineWidth : R;
  dash : dash_pattern;
  fontName : string;
  fontSize : R;
  ctm : list transform
}.

Inductive geometry : Type :=
| GRect (x y w h : R)
| GRoundRect (x y w h radius : R)
| GLine (x1 y1 x2 y2 : R)
| GCircle (cx cy r : R)
| GPath (points : list (R * R)) (closed : bool)
| GText (anchor : text_anchor) (x y : R) (text : string)
        (font : string) (size : R).

Record stroke_style : Type := mkStroke {
  s_color : color;
  s_width : R;
  s_dash : dash_pattern
}.

Record mark : Type := mkMark {
  m_geom : geometry;
  m_stroke : option stroke_style;
  m_fill : option color;
  m_ctm : list transform
}.

Record canvas : Type := mkCanvas {
  gs : gstate;
  saved : list gstate;
  page : list mark
}.

(** A fresh [canvas.Canvas(...)]: black, width 1, solid, Helvetica 12. *)
Definition initial_gstate : gstate :=
  mkGstate black black 1 Solid "Helvetica" 12 [].

Definition new_canvas : canvas := mkCanvas initial_gstate [] [].

(** One call on the canvas object.  [DrawPath] stands for the
    [beginPath]/[moveTo]/[lineTo]/[close]/[drawPath] sequence. *)
Inductive instr : Type :=
| SetStrokeColor (c : color)
| SetFillColor (c : color)
| SetLineWidth (w : R)
| SetDash (d : dash_pattern)
| SetFont (name : string) (size : R)
| SaveState
| RestoreState
| DoTranslate (dx dy : R)
| DoRotate (degrees : R)
| Rect (x y w h : R) (fill stroke : bool)
| RoundRect (x y w h radius : R) (fill stroke : bool)
| Line (x1 y1 x2 y2 : R)
| Circle (cx cy r : R) (fill stroke : bool)
| DrawPath (points : list (R * R)) (closed : bool) (fill stroke : bool)
| DrawString (x y : R) (text : string)
| DrawCentredString (x y : R) (text : string)
| DrawRightString (x y : R) (text : string).

Definition program : Type := list instr.

Definition set_gs (f : gstate -> gstate) (c : canvas) : canvas :=
  mkCanvas (f (gs c)) (saved c) (page c).

Definition current_stroke (g : gstate) : stroke_style :=
  mkStroke (strokeColor g) (lineWidth g) (dash g).

Definition paint (geom : geometry) (fill stroke : bool) (c : canvas) : canvas :=
  let g := gs c in
  mkCanvas g (saved c)
    (page c ++
     [mkMark geom
        (if stroke then Some (current_stroke g) else None)
        (if fill then Some (fillColor g) else None)
        (ctm g)]).

Definition paint_text (a : text_anchor) (x y : R) (s : string) (c : canvas)
  : canvas :=
  paint (GText a x y s (fontName (gs c)) (fontSize (gs c))) true false c.

Definition exec (i : instr) (c : canvas) : canvas :=
  match i with
  | SetStrokeColor col =>
      set_gs (fun g => mkGstate col (fillColor g) (lineWidth g) (dash g)
                                (fontName g) (fontSize g) (ctm g)) c
  | SetFillColor col =>
      set_gs (fun g => mkGstate (strokeColor g) col (lineWidth g) (dash g)
                                (fontName g) (fontSize g) (ctm g)) c
  | SetLineWidth w =>
      set_gs (fun g => mkGstate (strokeColor g) (fillColor g) w (dash g)
                                (fontName g) (fontSize g) (ctm g)) c
  | SetDash d =>
      set_gs (fun g => mkGstate (strokeColor g) (fillColor g) (lineWidth g) d
                                (fontName g) (fontSize g) (ctm g)) c
  | SetFont name size =>
      set_gs (fun g => mkGstate (strokeColor g) (fillColor g) (lineWidth g)
                                (dash g) name size (ctm g)) c
  | SaveState => mkCanvas (gs c) (gs c :: saved c) (page c)
  | RestoreState =>
      match saved c with
      | [] => c
      | g :: rest => mkCanvas g rest (page c)
      end
  | DoTranslate dx dy =>
      set_gs (fun g => mkGstate (strokeColor g) (fillColor g) (lineWidth g)
                                (dash g) (fontName g) (fontSize g)
                                (ctm g ++ [Translate dx dy])) c
  | DoRotate deg =>
      set_gs (fun g => mkGstate (strokeColor g) (fillColor g) (lineWidth g)
                                (dash g) (fontName g) (fontSize g)
                                (ctm g ++ [Rotate deg])) c
  | Rect x y w h fill stroke => paint (GRect x y w h) fill stroke c
  | RoundRect x y w h r fill stroke => paint (GRoundRect x y w h r) fill stroke c
  | Line x1 y1 x2 y2 => paint (GLine x1 y1 x2 y2) false true c
  | Circle cx cy r fill stroke => paint (GCircle cx cy r) fill stroke c
  | DrawPath pts closed fill stroke => paint (GPath pts closed) fill stroke c
  | DrawString x y s => paint_text AnchorLeft x y s c
  | DrawCentredString x y s => paint_text AnchorCentre x y s c
  | DrawRightString x y s => paint_text AnchorRight x y s c
  end.

(** Running a sequence of calls, first to last. *)
Fixpoint run (p : program) (c : canvas) : canvas :=
  match p with
  | [] => c
  | i :: rest => run rest (exec i c)
  end.

(** *** Page setup and colours *)

(** [reportlab.lib.units.mm]: points per millimetre. *)
Definition mm : R := 72 / 25.4.

(** [landscape(A4)]. *)
Definition PAGE_W : R := 297 * mm.
Definition PAGE_H : R := 210 * mm.
Definition MARGIN : R := 10 * mm.
Definition BORDER : R := MARGIN + 2 * mm.

Definition C_BORDER := HexColor "#1a1a2e".
Definition C_TITLE_BG := HexColor "#16213e".
Definition C_TITLE_TEXT := HexColor "#e2e2e2".
Definition C_GRID := HexColor "#cccccc".
Definition C_WALL := HexColor "#2c3e50".
Definition C_WALL_FILL := HexColor "#ecf0f1".
Definition C_RACK := HexColor "#2c3e50".
Definition C_RACK_FILL := HexColor "#34495e".
Definition C_HOT := HexColor "#e74c3c".
Definition C_COLD := HexColor "#3498db".
Definition C_ELEC_A := HexColor "#e74c3c".
Definition C_ELEC_B := HexColor "#2980b9".
Definition C_MECH := HexColor "#27ae60".
Definition C_GEN := HexColor "#f39c12".
Definition C_UPS := HexColor "#8e44ad".
Definition C_FIRE := HexColor "#c0392b".
Definition C_NET_CORE := HexColor "#2c3e50".
Definition C_NET_AGG := HexColor "#2980b9".
Definition C_NET_ACC := HexColor "#27ae60".
Definition C_COOL_SUPPLY := HexColor "#3498db".
Definition C_COOL_RETURN := HexColor "#e74c3c".
Definition C_LIGHT_BLUE := HexColor "#d6eaf8".
Definition C_LIGHT_RED := HexColor "#fadbd8".
Definition C_LIGHT_GREEN := HexColor "#d5f5e3".
Definition C_LIGHT_YELLOW := HexColor "#fef9e7".
Definition C_LIGHT_PURPLE := HexColor "#e8daef".
Definition C_DASHED := HexColor "#7f8c8d".

Definition DRW_LEFT : R := BORDER + 2 * mm.
Definition DRW_BOTTOM : R := BORDER + 40 * mm.
Definition DRW_RIGHT : R := PAGE_W - BORDER - 2 * mm.
Definition DRW_TOP : R := PAGE_H - BORDER - 2 * mm.
Definition DRW_W : R := DRW_RIGHT - DRW_LEFT.
Definition DRW_H : R := DRW_TOP - DRW_BOTTOM.

(** *** Sheet frame *)

(** [draw_border(c)] *)
Definition draw_border : program :=
  [ SetStrokeColor C_BORDER;
    SetLineWidth 0.5;
    Rect MARGIN MARGIN (PAGE_W - 2 * MARGIN) (PAGE_H - 2 * MARGIN) false true;
    SetLineWidth 1.5;
    Rect BORDER BORDER (PAGE_W - 2 * BORDER) (PAGE_H - 2 * BORDER) false true ].

(** [draw_title_block(c, dwg_no, title, subtitle, standard, rev="A", scale="NTS")] *)
Definition draw_title_block
  (dwg_no title subtitle standard rev scale : string) : program :=
  let tb_x := BORDER in
  let tb_y := BORDER in
  let tb_w := PAGE_W - 2 * BORDER in
  let tb_h := 36 * mm in
  [ (* Background *)
    SetFillColor C_TITLE_BG;
    Rect tb_x tb_y tb_w tb_h true false;
    (* Dividers *)
    SetStrokeColor C_TITLE_TEXT;
    SetLineWidth 0.5;
    Line tb_x (tb_y + 12 * mm) (tb_x + tb_w) (tb_y + 12 * mm);
    Line tb_x (tb_y + 24 * mm) (tb_x + tb_w) (tb_y + 24 * mm);
    Line (tb_x + 80 * mm) tb_y (tb_x + 80 * mm) (tb_y + 24 * mm);
    Line (tb_x + 160 * mm) tb_y (tb_x + 160 * mm) (tb_y + 24 * mm);
    Line (tb_x + 200 * mm) tb_y (tb_x + 200 * mm) (tb_y + 12 * mm);
    (* Top row: title *)
    SetFillColor white;
    SetFont "Helvetica-Bold" 14;
    DrawString (tb_x + 6 * mm) (tb_y + 27 * mm)
               ("SATSIBER DATA CENTER — " ++ title)%string;
    SetFont "Helvetica" 8;
    DrawRightString (tb_x + tb_w - 4 * mm) (tb_y + 27 * mm)
                    "UPTIME TIER III DESIGN";
    (* Middle row *)
    SetFont "Helvetica" 7;
    SetFillColor (HexColor "#aaaaaa");
    DrawString (tb_x + 4 * mm) (tb_y + 19 * mm) "PROJECT";
    DrawString (tb_x + 84 * mm) (tb_y + 19 * mm) "SUBTITLE";
    DrawString (tb_x + 164 * mm) (tb_y + 19 * mm) "CLASSIFICATION";
    SetFillColor white;
    SetFont "Helvetica-Bold" 9;
    DrawString (tb_x + 4 * mm) (tb_y + 14 * mm) "Satsiber New Data Center";
    DrawString (tb_x + 84 * mm) (tb_y + 14 * mm) subtitle;
    DrawString (tb_x + 164 * mm) (tb_y + 14 * mm) "CONFIDENTIAL";
    (* Bottom row *)
    SetFont "Helvetica" 7;
    SetFillColor (HexColor "#aaaaaa");
    DrawString (tb_x + 4 * mm) (tb_y + 7 * mm) "DWG NO.";
    DrawString (tb_x + 84 * mm) (tb_y + 7 * mm) "STANDARD";
    DrawString (tb_x + 164 * mm) (tb_y + 7 * mm) "SCALE";
    DrawString (tb_x + 204 * mm) (tb_y + 7 * mm) "REV";
    SetFillColor white;
    SetFont "Helvetica-Bold" 10;
    DrawString (tb_x + 4 * mm) (tb_y + 2 * mm) dwg_no;
    SetFont "Helvetica" 9;
    DrawString (tb_x + 84 * mm) (tb_y + 2 * mm) standard;
    DrawString (tb_x + 164 * mm) (tb_y + 2 * mm) scale;
    DrawString (tb_x + 204 * mm) (tb_y + 2 * mm) rev;
    (* Date *)
    SetFont "Helvetica" 7;
    SetFillColor (HexColor "#aaaaaa");
    DrawString (tb_x + 230 * mm) (tb_y + 7 * mm) "DATE";
    SetFillColor white;
    SetFont "Helvetica" 9;
    DrawString (tb_x + 230 * mm) (tb_y + 2 * mm) "2026-02-27" ].

(** [draw_grid_refs(c)] *)
Definition draw_grid_refs : program :=
  let cols := chars "ABCDEFGHJK" in
  let rows := chars "12345678" in
  [ SetFont "Helvetica" 6; SetFillColor C_GRID ]
  ++ flat_map
       (fun '(i, ch) =>
          let x := DRW_LEFT + (INR i + 0.5) * DRW_W / INR (List.length cols) in
          [ DrawCentredString x (DRW_TOP + 2 * mm) ch;
            DrawCentredString x (DRW_BOTTOM - 6 * mm) ch ])
       (enumerate cols)
  ++ flat_map
       (fun '(i, ch) =>
          let y := DRW_BOTTOM + (INR i + 0.5) * DRW_H / INR (List.length rows) in
          [ DrawCentredString (DRW_LEFT - 5 * mm) (y - 2) ch;
            DrawCentredString (DRW_RIGHT + 5 * mm) (y - 2) ch ])
       (enumerate rows).

(** *** Primitive and symbol helpers *)

(** Truthiness of an optional string argument ([if ref_id:]). *)
Definition truthy (s : option string) : bool :=
  match s with
  | None => false
  | Some EmptyString => false
  | Some _ => true
  end.

Definition text_of (s : option string) : string :=
  match s with
  | None => EmptyString
  | Some t => t
  end.

(** [draw_room(c, x, y, w, h, label, ref_id=None, fill=C_WALL_FILL,
    text_color=C_WALL)] *)
Definition draw_room (x y w h : R) (label : string) (ref_id : option string)
  (fill text_color : color) : program :=
  [ SetFillColor fill;
    SetStrokeColor C_WALL;
    SetLineWidth 1.2;
    Rect x y w h true true;
    SetFillColor text_color;
    SetFont "Helvetica-Bold" 7;
    DrawCentredString (x + w / 2) (y + h / 2 + 2) label ]
  ++ (if truthy ref_id
      then [ SetFont "Helvetica" 5.5;
             SetFillColor (HexColor "#666666");
             DrawCentredString (x + w / 2) (y + h / 2 - 6) (text_of ref_id) ]
      else []).

(** [draw_rack(c, x, y, w, h, label, fill=C_RACK_FILL)] *)
Definition draw_rack (x y w h : R) (label : string) (fill : color) : program :=
  [ SetFillColor fill;
    SetStrokeColor C_RACK;
    SetLineWidth 0.8;
    Rect x y w h true true;
    SetFillColor white;
    SetFont "Helvetica-Bold" 4.5;
    DrawCentredString (x + w / 2) (y + h / 2 - 1.5) label ].

(** [math.atan2(y, x)] on reals: the angle of the point [(x, y)] in
    [(-pi, pi]], with [atan2(0, 0) = 0] as the C library defines it. *)
Definition atan2 (y x : R) : R :=
  if Rlt_dec 0 x then atan (y / x)
  else if Rlt_dec x 0
       then (if Rle_dec 0 y then atan (y / x) + PI else atan (y / x) - PI)
       else if Rlt_dec 0 y then PI / 2
            else if Rlt_dec y 0 then - (PI / 2)
                 else 0.

(** [draw_arrow(c, x1, y1, x2, y2, color=black, width=0.8)] *)
Definition draw_arrow (x1 y1 x2 y2 : R) (col : color) (width : R) : program :=
  let angle := atan2 (y2 - y1) (x2 - x1) in
  let alen := 3 * mm in
  [ SetStrokeColor col;
    SetFillColor col;
    SetLineWidth width;
    Line x1 y1 x2 y2;
    (* Arrowhead *)
    DrawPath
      [ (x2, y2);
        (x2 - alen * cos (angle - 0.3), y2 - alen * sin (angle - 0.3));
        (x2 - alen * cos (angle + 0.3), y2 - alen * sin (angle + 0.3)) ]
      true true false ].

(** [draw_dashed_rect(c, x, y, w, h, color=C_DASHED, width=0.6)] *)
Definition draw_dashed_rect (x y w h : R) (col : color) (width : R) : program :=
  [ SetStrokeColor col;
    SetLineWidth width;
    SetDash (Dashed 3 2);
    Rect x y w h false true;
    SetDash Solid ].

(** [draw_legend_item(c, x, y, color, label, shape="rect")] *)
Definition draw_legend_item (x y : R) (col : color) (label shape : string)
  : program :=
  (if String.eqb shape "rect" then
     [ SetFillColor col;
       SetStrokeColor black;
       SetLineWidth 0.4;
       Rect x y (4 * mm) (3 * mm) true true ]
   else if String.eqb shape "line" then
     [ SetStrokeColor col;
       SetLineWidth 1.5;
       Line x (y + 1.5 * mm) (x + 4 * mm) (y + 1.5 * mm) ]
   else if String.eqb shape "dash" then
     [ SetStrokeColor col;
       SetLineWidth 1;
       SetDash (Dashed 2 1.5);
       Line x (y + 1.5 * mm) (x + 4 * mm) (y + 1.5 * mm);
       SetDash Solid ]
   else if String.eqb shape "circle" then
     [ SetFillColor col;
       SetStrokeColor black;
       SetLineWidth 0.4;
       Circle (x + 2 * mm) (y + 1.5 * mm) (1.5 * mm) true true ]
   else [])
  ++ [ SetFillColor black;
       SetFont "Helvetica" 5.5;
       DrawString (x + 6 * mm) (y + 0.5 * mm) label ].

(** [draw_north_arrow(c, x, y)] *)
Definition draw_north_arrow (x y : R) : program :=
  [ SetStrokeColor black;
    SetFillColor black;
    SetLineWidth 0.8;
    DrawPath
      [ (x, y); (x - 2 * mm, y - 6 * mm); (x, y - 4.5 * mm);
        (x + 2 * mm, y - 6 * mm) ]
      true true true;
    SetFont "Helvetica-Bold" 7;
    DrawCentredString x (y + 2 * mm) "N" ].

(** *** Legend blocks of the five sheets (the [draw_legend_item] calls of
    each composer, at the composer's legend origin [lx], [ly]) *)

Definition floor_plan_legend (lx ly : R) : program :=
  draw_legend_item (lx + 2 * mm) (ly + 23 * mm) C_RACK_FILL "Server Rack (42U)" "rect"
  ++ draw_legend_item (lx + 2 * mm) (ly + 18 * mm) C_COLD "Cold Aisle Containment" "dash"
  ++ draw_legend_item (lx + 2 * mm) (ly + 13 * mm) C_HOT "Hot Aisle Containment" "dash"
  ++ draw_legend_item (lx + 2 * mm) (ly + 8 * mm) C_GEN "Generator (N+1)" "rect"
  ++ draw_legend_item (lx + 2 * mm) (ly + 3 * mm) C_LIGHT_PURPLE "UPS Room (A/B Redundant)" "rect".

Definition electrical_legend (lx ly : R) : program :=
  draw_legend_item (lx + 2 * mm) (ly + 21 * mm) C_ELEC_A "Path A (Primary)" "line"
  ++ draw_legend_item (lx + 2 * mm) (ly + 16 * mm) C_ELEC_B "Path B (Redundant)" "line"
  ++ draw_legend_item (lx + 2 * mm) (ly + 11 * mm) C_GEN "Generator (IEC 60617)" "circle"
  ++ draw_legend_item (lx + 2 * mm) (ly + 6 * mm) C_LIGHT_PURPLE "UPS Module" "rect"
  ++ draw_legend_item (lx + 2 * mm) (ly + 1 * mm) C_DASHED "N+1 Spare (Standby)" "dash".

Definition network_legend (lx ly : R) : program :=
  draw_legend_item (lx + 2 * mm) (ly + 19 * mm) C_NET_CORE "WAN / Border (L3)" "rect"
  ++ draw_legend_item (lx + 2 * mm) (ly + 14 * mm) C_FIRE "Firewall (HA Pair)" "rect"
  ++ draw_legend_item (lx + 2 * mm) (ly + 9 * mm) C_MECH "Core Switch (L3 / 40GbE)" "rect"
  ++ draw_legend_item (lx + 2 * mm) (ly + 4 * mm) C_NET_AGG "ToR Switch (L2 / 10GbE)" "rect"
  ++ draw_legend_item (lx + 2 * mm) (ly - 1 * mm) C_RACK_FILL "Server Rack (Dual-homed)" "rect".

Definition cooling_legend (lx ly : R) : program :=
  draw_legend_item (lx + 2 * mm) (ly + 19 * mm) C_COOL_SUPPLY "CHW Supply (7°C)" "line"
  ++ draw_legend_item (lx + 2 * mm) (ly + 14 * mm) C_COOL_RETURN "CHW Return (12°C)" "line"
  ++ draw_legend_item (lx + 2 * mm) (ly + 9 * mm) C_COLD "Cold Air (18-27°C)" "rect"
  ++ draw_legend_item (lx + 2 * mm) (ly + 4 * mm) C_HOT "Hot Air Exhaust" "rect"
  ++ draw_legend_item (lx + 2 * mm) (ly - 1 * mm) C_DASHED "N+1 Spare Equipment" "dash".

Definition fire_legend (lx ly : R) : program :=
  draw_legend_item (lx + 2 * mm) (ly + 19 * mm) C_FIRE "Fire Alarm / Detection" "rect"
  ++ draw_legend_item (lx + 2 * mm) (ly + 14 * mm) C_LIGHT_RED "VESDA Zone" "circle"
  ++ draw_legend_item (lx + 2 * mm) (ly + 9 * mm) (HexColor "#fdebd0") "Agent Storage" "rect"
  ++ draw_legend_item (lx + 2 * mm) (ly + 4 * mm) C_MECH "BMS Integration" "rect"
  ++ draw_legend_item (lx + 2 * mm) (ly - 1 * mm) C_DASHED "Control Signal" "dash".

(** *** Drawing composers and batch driver

    Each composer opens with the sheet frame and goes on with a long literal
    script of canvas calls.  The frame is transcribed; the script that
    follows it is a parameter: any sequence of canvas calls. *)

Record sheet_scripts : Type := mkScripts {
  floor_plan_script : program;
  electrical_script : program;
  network_script : program;
  cooling_script : program;
  fire_script : program
}.

(** [os.path.join(a, b)] on POSIX paths. *)
Definition ends_with_sep (s : string) : bool :=
  match String.length s with
  | O => false
  | S n => String.eqb (substring n 1 s) "/"
  end.

Definition os_path_join (a b : string) : string :=
  if prefix "/" b then b
  else if (String.eqb a "" || ends_with_sep a)%bool then (a ++ b)%string
  else (a ++ "/" ++ b)%string.

(** What [pdf.save()] hands to the PDF writer: the document information set
    by [setTitle], [setAuthor], [setSubject], and the drawn canvas. *)
Record pdf_document : Type := mkPdfDocument {
  doc_title : string;
  doc_author : string;
  doc_subject : string;
  doc_canvas : canvas
}.

Section Composers.

Variable scripts : sheet_scripts.

Definition draw_floor_plan : program :=
  draw_border
  ++ draw_title_block "SAT-DC-FP-001" "DATA CENTER FLOOR PLAN"
       "16-Rack Layout — Hot/Cold Aisle" "ISO/IEC 22237 / TIA-942" "A" "NTS"
  ++ draw_grid_refs
  ++ floor_plan_script scripts.

Definition draw_electrical : program :=
  draw_border
  ++ draw_title_block "SAT-DC-EL-001" "ELECTRICAL SINGLE LINE DIAGRAM"
       "Dual Feed — N+1 Redundancy" "IEC 60617 / IEEE C2" "A" "NTS"
  ++ draw_grid_refs
  ++ electrical_script scripts.

Definition draw_network : program :=
  draw_border
  ++ draw_title_block "SAT-DC-NT-001" "NETWORK TOPOLOGY DIAGRAM"
       "Redundant Core — Dual ISP" "TIA-942 / ISO/IEC 24764" "A" "NTS"
  ++ draw_grid_refs
  ++ network_script scripts.

Definition draw_cooling : program :=
  draw_border
  ++ draw_title_block "SAT-DC-CL-001" "COOLING SYSTEM DIAGRAM"
       "Chilled Water — N+1 CRAHs" "ASHRAE TC 9.9" "A" "NTS"
  ++ draw_grid_refs
  ++ cooling_script scripts.

Definition draw_fire : program :=
  draw_border
  ++ draw_title_block "SAT-DC-FS-001" "FIRE SUPPRESSION SYSTEM"
       "VESDA / Clean Agent / Pre-Action" "NFPA 75 / NFPA 2001" "A" "NTS"
  ++ draw_grid_refs
  ++ fire_script scripts.

Definition drawings : list (string * program) :=
  [ ("SAT-DC-FP-001_Floor-Plan.pdf", draw_floor_plan);
    ("SAT-DC-EL-001_Electrical-SLD.pdf", draw_electrical);
    ("SAT-DC-NT-001_Network-Topology.pdf", draw_network);
    ("SAT-DC-CL-001_Cooling-System.pdf", draw_cooling);
    ("SAT-DC-FS-001_Fire-Suppression.pdf", draw_fire) ].

(** [main()]: the files saved, in order, as (path, document) pairs.
    [script_dir] is [os.path.dirname(__file__)].  Console output is left
    out. *)
Definition main (script_dir : string) : list (string * pdf_document) :=
  let out_dir := os_path_join (os_path_join script_dir "build") "pdf" in
  map (fun '(filename, draw_fn) =>
         let filepath := os_path_join out_dir filename in
         (filepath,
          mkPdfDocument
            (replace "_" " " (replace ".pdf" "" filename))
            "Satsiber Engineering"
            "Uptime Tier III Design Certification"
            (run draw_fn new_canvas)))
      drawings.

End Composers.

(** *** Vocabulary for stating properties of the PDF renderer *)

(** A canvas that has only a dash pattern and a transform set. *)
Definition canvas_with (d : dash_pattern) (t : list transform) : canvas :=
  mkCanvas (mkGstate black black 1 d "Helvetica" 12 t) [] [].

(** A helper paints by its parameters when what it adds to the page is fixed
    by its arguments and by the dash pattern and transform in force, and it
    leaves the page so far, the state stack and the transform alone. *)
Definition paints_by_parameters (p : program) : Prop :=
  forall c : canvas,
    page (run p c) = page c ++ page (run p (canvas_with (dash (gs c)) (ctm (gs c))))
    /\ saved (run p c) = saved c
    /\ ctm (gs (run p c)) = ctm (gs c).

Definition distance (p q : R * R) : R :=
  sqrt ((fst p - fst q) * (fst p - fst q) + (snd p - snd q) * (snd p - snd q)).

(** The calls of the toolkit's helpers. *)
Inductive helper_call : Type :=
| CallBorder
| CallTitleBlock (dwg_no title subtitle standard rev scale : string)
| CallGridRefs
| CallRoom (x y w h : R) (label : string) (ref_id : option string)
           (fill text_color : color)
| CallRack (x y w h : R) (label : string) (fill : color)
| CallArrow (x1 y1 x2 y2 : R) (col : color) (width : R)
| CallDashedRect (x y w h : R) (col : color) (width : R)
| CallLegendItem (x y : R) (col : color) (label shape : string)
| CallNorthArrow (x y : R).

Definition program_of (h : helper_call) : program :=
  match h with
  | CallBorder => draw_border
  | CallTitleBlock d t s st r sc => draw_title_block d t s st r sc
  | CallGridRefs => draw_grid_refs
  | CallRoom x y w h l r f tc => draw_room x y w h l r f tc
  | CallRack x y w h l f => draw_rack x y w h l f
  | CallArrow x1 y1 x2 y2 col wd => draw_arrow x1 y1 x2 y2 col wd
  | CallDashedRect x y w h col wd => draw_dashed_rect x y w h col wd
  | CallLegendItem x y col l sh => draw_legend_item x y col l sh
  | CallNorthArrow x y => draw_north_arrow x y
  end.

(** The helper calls that draw something dashed on purpose. *)
Definition sets_dash (h : helper_call) : bool :=
  match h with
  | CallDashedRect _ _ _ _ _ _ => true
  | CallLegendItem _ _ _ _ shape => String.eqb shape "dash"
  | _ => false
  end.

Definition touches_dash (i : instr) : bool :=
  match i with
  | SetDash _ | RestoreState => true
  | _ => false
  end.

Definition dash_free (p : program) : bool :=
  forallb (fun i => negb (touches_dash i)) p.

Definition solid_stroke (m : mark) : Prop :=
  match m_stroke m with
  | Some s => s_dash s = Solid
  | None => True
  end.

(** The strings drawn on a page, in drawing order. *)
Definition mark_text (m : mark) : option string :=
  match m_geom m with
  | GText _ _ _ s _ _ => Some s
  | _ => None
  end.

(** The baselines of the left-anchored strings, in drawing order. *)
Definition label_rows (ms : list mark) : list R :=
  flat_map (fun m => match m_geom m with
                     | GText AnchorLeft _ y _ _ _ => [y]
                     | _ => []
                     end) ms.

(** Consecutive rows are [d] apart, going down. *)
Fixpoint steps_down (d : R) (ys : list R) : Prop :=
  match ys with
  | y1 :: ((y2 :: _) as rest) => y2 = y1 - d /\ steps_down d rest
  | _ => True
  end.

(** The drawing-number and date cells of the title block, as painted on a
    fresh canvas. *)
Definition dwg_no_cell (dwg_no : string) : mark :=
  mkMark (GText AnchorLeft (BORDER + 4 * mm) (BORDER + 2 * mm) dwg_no
                "Helvetica-Bold" 10)
         None (Some white) [].

Definition date_cell : mark :=
  mkMark (GText AnchorLeft (BORDER + 230 * mm) (BORDER + 2 * mm) "2026-02-27"
                "Helvetica" 9)
         None (Some white) [].

(** *** The rack rows of [draw_floor_plan]

    The part of the composer between the data-hall heading and the support
    rooms: four rows of racks around two cold aisles and one hot aisle, with
    the composer's local variables under their own names. *)

Definition ox : R := DRW_LEFT + 8 * mm.
Definition oy : R := DRW_BOTTOM + 8 * mm.
Definition bw : R := 230 * mm.
Definition bh : R := DRW_H - 16 * mm.
Definition dh_x : R := ox + 58 * mm.
Definition dh_y : R := oy + 5 * mm.
Definition dh_w : R := 130 * mm.
Definition dh_h : R := bh - 10 * mm.
Definition ca_w : R := 18 * mm.
Definition row_start_y : R := dh_y + 10 * mm.
Definition rack_w : R := 7 * mm.
Definition rack_h : R := 11 * mm.
Definition rack_gap : R := 2 * mm.
Definition a1_x : R := dh_x + 12 * mm.
Definition ca1_x : R := a1_x + rack_w + 1 * mm.
Definition b1_x : R := ca1_x + ca_w + 1 * mm.
Definition hot_x : R := b1_x + rack_w + 2 * mm.
Definition a2_x : R := hot_x + 14 * mm + 2 * mm.
Definition ca2_x : R := a2_x + rack_w + 1 * mm.
Definition d1_x : R := ca2_x + ca_w + 1 * mm.

(** [for i in range(8): ... draw_rack(c, x, ry, rack_w, rack_h, f"{row}{i+1:02d}")] *)
Definition rack_row (x : R) (row : string) : program :=
  flat_map
    (fun i =>
       let ry := row_start_y + INR i * (rack_h + rack_gap) in
       draw_rack x ry rack_w rack_h (row ++ fmt_02d (i + 1))%string C_RACK_FILL)
    (seq 0 8).

(** The [saveState] ... [restoreState] block that writes an aisle name
    turned by 90 degrees. *)
Definition aisle_name (x y : R) (col : color) (name : string) : program :=
  [ SaveState;
    SetFillColor col;
    SetFont "Helvetica" 5;
    DoTranslate x y;
    DoRotate 90;
    DrawCentredString 0 0 name;
    RestoreState ].

Definition zone_height : R := 8 * (rack_h + rack_gap) - rack_gap + 2 * mm.

Definition data_hall_racks : program :=
  (* Aisle 1: racks A01-A08 and B01-B08 *)
  rack_row a1_x "A"
  (* Cold aisle 1 *)
  ++ [ SetFillColor (HexColor "#d6eaf844");
       SetStrokeColor C_COLD;
       SetLineWidth 0.6;
       SetDash (Dashed 2 1);
       Rect ca1_x (row_start_y - 1 * mm) ca_w zone_height false true;
       SetDash Solid ]
  ++ aisle_name (ca1_x + ca_w / 2) (row_start_y + 30 * mm) C_COLD "COLD AISLE 1"
  ++ rack_row b1_x "B"
  (* Hot aisle between aisle groups *)
  ++ [ SetStrokeColor C_HOT;
       SetLineWidth 0.6;
       SetDash (Dashed 2 1);
       Rect hot_x (row_start_y - 1 * mm) (14 * mm) zone_height false true;
       SetDash Solid ]
  ++ aisle_name (hot_x + 7 * mm) (row_start_y + 30 * mm) C_HOT "HOT AISLE"
  (* Aisle 2: racks C01-C08 and D01-D08 *)
  ++ rack_row a2_x "C"
  ++ [ SetStrokeColor C_COLD;
       SetLineWidth 0.6;
       SetDash (Dashed 2 1);
       Rect ca2_x (row_start_y - 1 * mm) ca_w zone_height false true;
       SetDash Solid ]
  ++ aisle_name (ca2_x + ca_w / 2) (row_start_y + 30 * mm) C_COLD "COLD AISLE 2"
  ++ rack_row d1_x "D".

(** *** More vocabulary *)

(** The points that fix where a mark lies: corners, end points, anchor. *)
Definition mark_points (m : mark) : list (R * R) :=
  match m_geom m with
  | GRect x y w h => [ (x, y); (x + w, y + h) ]
  | GRoundRect x y w h _ => [ (x, y); (x + w, y + h) ]
  | GLine x1 y1 x2 y2 => [ (x1, y1); (x2, y2) ]
  | GCircle cx cy r => [ (cx - r, cy - r); (cx + r, cy + r) ]
  | GPath pts _ => pts
  | GText _ x y _ _ _ => [ (x, y) ]
  end.

Definition in_box (x0 y0 x1 y1 : R) (p : R * R) : Prop :=
  x0 <= fst p <= x1 /\ y0 <= snd p <= y1.

(** A mark with its string blanked: what is left is where and how it is
    drawn. *)
Definition layout (m : mark) : mark :=
  match m_geom m with
  | GText a x y _ f sz =>
      mkMark (GText a x y EmptyString f sz) (m_stroke m) (m_fill m) (m_ctm m)
  | _ => m
  end.

(** A program is balanced when it touches neither the state stack nor the
    transform. *)
Definition touches_frame (i : instr) : bool :=
  match i with
  | SaveState | RestoreState | DoTranslate _ _ | DoRotate _ => true
  | _ => false
  end.

Definition frame_free (p : program) : bool :=
  forallb (fun i => negb (touches_frame i)) p.

(** The filled rectangles of a given fill colour. *)
Definition is_filled_rect (col : color) (m : mark) : bool :=
  match m_geom m, m_fill m with
  | GRect _ _ _ _, Some (HexColor h) =>
      match col with HexColor h' => String.eqb h h' | _ => false end
  | _, _ => false
  end.

(** Where a point of a mark falls on the page: the transforms in force when
    the mark was painted, applied last call first ([translate] then [rotate]
    turns the drawing about the translated origin). *)
Fixpoint to_page (t : list transform) (p : R * R) : R * R :=
  match t with
  | [] => p
  | Translate dx dy :: rest =>
      let q := to_page rest p in (fst q + dx, snd q + dy)
  | Rotate degrees :: rest =>
      let q := to_page rest p in
      let a := degrees * PI / 180 in
      (fst q * cos a - snd q * sin a, fst q * sin a + snd q * cos a)
  end.

Definition within (x0 y0 x1 y1 : R) (m : mark) : Prop :=
  Forall (in_box x0 y0 x1 y1) (map (to_page (m_ctm m)) (mark_points m)).

(** *** Legend entries *)

(** The shapes [draw_legend_item] has a branch for. *)
Definition known_shape (shape : string) : bool :=
  (String.eqb shape "rect" || String.eqb shape "line"
   || String.eqb shape "dash" || String.eqb shape "circle")%bool.

(** A legend entry on the row at [(x, y)]: a swatch, which is a shape and not
    a string and lies within the box 4 mm wide and 3 mm high at [(x, y)],
    followed by its label, a string in Helvetica 5.5 whose left end is 6 mm
    right of [x] and 0.5 mm above [y]. *)
Definition legend_entry (x y : R) (swatch text : mark) : Prop :=
  mark_text swatch = None
  /\ Forall (in_box x y (x + 4 * mm) (y + 3 * mm)) (mark_points swatch)
  /\ exists label,
       m_geom text =
       GText AnchorLeft (x + 6 * mm) (y + 0.5 * mm) label "Helvetica" 5.5.

(** [n] legend entries and nothing else, one row every [d] downwards from
    [y]. *)
Fixpoint legend_block (x y d : R) (n : nat) (ms : list mark) : Prop :=
  match n, ms with
  | O, [] => True
  | S n', swatch :: text :: rest =>
      legend_entry x y swatch text /\ legend_block x (y - d) d n' rest
  | _, _ => False
  end.

End Pdf.

(** ** The DXF renderer ([generate_dxf.py]) *)

Module Dxf.

(** *** The drawing document

    The part of an ezdxf document that the source drives: the model space as
    the ordered list of entities added to it, and the style and line-type
    tables. *)

Definition point : Type := (R * R)%type.

Inductive alignment : Type :=
| LEFT              (* the default of [set_placement] *)
| MIDDLE_CENTER
| MIDDLE_LEFT
| MIDDLE_RIGHT.

(** A [dxfattribs] dictionary: the keys the source uses; an absent key is
    [None]. *)
Record dxfattribs : Type := mkAttribs {
  color : option Z;
  lineweight : option Z;
  linetype : option string;
  height : option R;
  style : option string
}.

(** [{"color": c}] and its variants for lines, polylines and circles. *)
Definition stroke_attribs (c : Z) (lw : option Z) (lt : option string)
  : dxfattribs :=
  mkAttribs (Some c) lw lt None None.

(** [{"height": h, "color": c}] and [{..., "style": s}] for text. *)
Definition text_attribs (h : R) (c : Z) (st : option string) : dxfattribs :=
  mkAttribs (Some c) None None (Some h) st.

Inductive entity : Type :=
| LWPolyline (points : list point) (a : dxfattribs)
| Line (p1 p2 : point) (a : dxfattribs)
| Circle (center : point) (radius : R) (a : dxfattribs)
| Text (content : string) (a : dxfattribs) (at_point : point)
       (align : alignment).

Definition modelspace : Type := list entity.

(** A drawing step: it takes the model space and returns it updated. *)
Definition step : Type := modelspace -> modelspace.

Definition seq_step (f g : step) : step := fun msp => g (f msp).

Notation "f >> g" := (seq_step f g) (at level 61, left associativity).

Definition skip : step := fun msp => msp.

Definition add_lwpolyline (pts : list point) (a : dxfattribs) : step :=
  fun msp => msp ++ [LWPolyline pts a].

Definition add_line (p1 p2 : point) (a : dxfattribs) : step :=
  fun msp => msp ++ [Line p1 p2 a].

Definition add_circle (center : point) (radius : R) (a : dxfattribs) : step :=
  fun msp => msp ++ [Circle center radius a].

(** [msp.add_text(content, dxfattribs=a).set_placement(p, align=al)] *)
Definition add_text (content : string) (a : dxfattribs) (p : point)
  (al : alignment) : step :=
  fun msp => msp ++ [Text content a p al].

(** [for x in xs: body(x)] *)
Fixpoint for_each {A : Type} (xs : list A) (body : A -> step) : step :=
  match xs with
  | [] => skip
  | x :: rest => body x >> for_each rest body
  end.

(** Standard colours (AutoCAD Color Index) *)
Definition WHITE : Z := 7.
Definition RED : Z := 1.
Definition YELLOW : Z := 2.
Definition GREEN : Z := 3.
Definition CYAN : Z := 4.
Definition BLUE : Z := 5.
Definition MAGENTA : Z := 6.
Definition GRAY : Z := 8.
Definition LIGHT_GRAY : Z := 9.
Definition DARK_RED : Z := 14.
Definition DARK_GREEN : Z := 94.
Definition DARK_BLUE : Z := 174.

(** *** Sheet frame *)

(** [add_title_block(msp, dwg_no, title_line1, title_line2, standard,
    x_off=0, y_off=0)] *)
Definition add_title_block (dwg_no title_line1 title_line2 standard : string)
  (x_off y_off : R) : step :=
  let bx := x_off in
  let by_ := y_off in
  (* Outer frame *)
  add_lwpolyline
    [ (bx, by_); (bx + 570, by_); (bx + 570, by_ + 140);
      (bx, by_ + 140); (bx, by_) ]
    (stroke_attribs WHITE (Some 50%Z) None)
  (* Logo section *)
  >> add_text "SATSIBER" (text_attribs 18 WHITE (Some "TITLE"))
       (bx + 100, by_ + 115) MIDDLE_CENTER
  >> add_text "DATA CENTER FACILITY" (text_attribs 6 GRAY None)
       (bx + 100, by_ + 95) MIDDLE_CENTER
  (* Vertical divider *)
  >> add_line (bx + 200, by_) (bx + 200, by_ + 140)
       (stroke_attribs WHITE None None)
  (* Drawing title *)
  >> add_text "DRAWING TITLE:" (text_attribs 4 GRAY None)
       (bx + 210, by_ + 125) LEFT
  >> add_text title_line1 (text_attribs 8 WHITE (Some "TITLE"))
       (bx + 210, by_ + 112) LEFT
  >> add_text title_line2 (text_attribs 7 WHITE None)
       (bx + 210, by_ + 100) LEFT
  (* Horizontal divider *)
  >> add_line (bx + 200, by_ + 90) (bx + 570, by_ + 90)
       (stroke_attribs WHITE None None)
  (* DWG info row *)
  >> add_text ("DWG NO: " ++ dwg_no)%string (text_attribs 6 WHITE None)
       (bx + 210, by_ + 75) LEFT
  >> add_text "REV: A" (text_attribs 6 WHITE None) (bx + 380, by_ + 75) LEFT
  >> add_text "DATE: 2026-02-27" (text_attribs 6 WHITE None)
       (bx + 450, by_ + 75) LEFT
  (* Horizontal divider *)
  >> add_line (bx + 200, by_ + 65) (bx + 570, by_ + 65)
       (stroke_attribs WHITE None None)
  (* Scale and standard *)
  >> add_text "SCALE: NTS" (text_attribs 5 WHITE None) (bx + 210, by_ + 50) LEFT
  >> add_text ("STD: " ++ standard)%string (text_attribs 5 WHITE None)
       (bx + 350, by_ + 50) LEFT
  (* Horizontal divider *)
  >> add_line (bx + 200, by_ + 40) (bx + 570, by_ + 40)
       (stroke_attribs WHITE None None)
  >> add_text "UPTIME TIER III" (text_attribs 7 RED (Some "TITLE"))
       (bx + 210, by_ + 20) LEFT
  (* Designer info (left column) *)
  >> add_line (bx, by_ + 90) (bx + 200, by_ + 90) (stroke_attribs WHITE None None)
  >> add_text "DESIGNED: SATSIBER ENGINEERING" (text_attribs 5 WHITE None)
       (bx + 10, by_ + 70) LEFT
  >> add_line (bx, by_ + 60) (bx + 200, by_ + 60) (stroke_attribs WHITE None None)
  >> add_text "CHECKED: ___________" (text_attribs 5 GRAY None)
       (bx + 10, by_ + 42) LEFT
  >> add_line (bx, by_ + 30) (bx + 200, by_ + 30) (stroke_attribs WHITE None None)
  >> add_text "APPROVED: ___________" (text_attribs 5 GRAY None)
       (bx + 10, by_ + 14) LEFT.

(** [add_border(msp, width=1180, height=840)] *)
Definition add_border (width height : R) : step :=
  add_lwpolyline
    [ (0, 0); (width, 0); (width, height); (0, height); (0, 0) ]
    (stroke_attribs WHITE (Some 70%Z) None)
  >> add_lwpolyline
       [ (5, 5); (width - 5, 5); (width - 5, height - 5); (5, height - 5);
         (5, 5) ]
       (stroke_attribs WHITE (Some 18%Z) None).

(** *** Symbol library *)

(** [add_room_box(msp, x, y, w, h, label, ref, color=WHITE,
    fill_pattern=None)]; [fill_pattern] is never read. *)
Definition add_room_box (x y w h : R) (label ref : string) (col : Z) : step :=
  add_lwpolyline
    [ (x, y); (x + w, y); (x + w, y + h); (x, y + h); (x, y) ]
    (stroke_attribs col (Some 35%Z) None)
  >> add_text label (text_attribs 6 col (Some "TITLE"))
       (x + w / 2, y + h - 10) MIDDLE_CENTER
  (* Reference tag *)
  >> add_text ref (text_attribs 4 RED None) (x + w - 5, y + h - 5) MIDDLE_RIGHT.

(** [add_equipment(msp, x, y, w, h, label, tag, color=CYAN, dashed=False)] *)
Definition add_equipment (x y w h : R) (label tag : string) (col : Z)
  (dashed : bool) : step :=
  let pts := [ (x, y); (x + w, y); (x + w, y + h); (x, y + h); (x, y) ] in
  let attribs :=
    stroke_attribs col (Some 25%Z) (if dashed then Some "DASHED" else None) in
  add_lwpolyline pts attribs
  >> add_text label (text_attribs 4 col None)
       (x + w / 2, y + h / 2 + 2) MIDDLE_CENTER
  >> add_text tag (text_attribs 3 col None)
       (x + w / 2, y + h / 2 - 4) MIDDLE_CENTER.

(** [add_bus_bar(msp, x, y, length, label, color=WHITE, horizontal=True)] *)
Definition add_bus_bar (x y length : R) (label : string) (col : Z)
  (horizontal : bool) : step :=
  if horizontal then
    add_lwpolyline [ (x, y); (x + length, y) ]
      (stroke_attribs col (Some 70%Z) None)
    >> add_text label (text_attribs 4 col None)
         (x + length / 2, y - 8) MIDDLE_CENTER
  else
    add_lwpolyline [ (x, y); (x, y + length) ]
      (stroke_attribs col (Some 70%Z) None).

(** [add_generator_symbol(msp, cx, cy, radius, label, tag, color=WHITE)] *)
Definition add_generator_symbol (cx cy radius : R) (label tag : string)
  (col : Z) : step :=
  add_circle (cx, cy) radius (stroke_attribs col (Some 35%Z) None)
  >> add_text "G" (text_attribs (radius * 1.2) col (Some "TITLE"))
       (cx, cy) MIDDLE_CENTER
  >> add_text label (text_attribs 3.5 col None)
       (cx, cy - radius - 6) MIDDLE_CENTER
  >> add_text tag (text_attribs 3 CYAN None)
       (cx, cy - radius - 12) MIDDLE_CENTER.

(** [add_transformer_symbol(msp, cx, cy, radius, label, color=WHITE)] *)
Definition add_transformer_symbol (cx cy radius : R) (label : string)
  (col : Z) : step :=
  add_circle (cx, cy + radius * 0.4) radius (stroke_attribs col (Some 35%Z) None)
  >> add_circle (cx, cy - radius * 0.4) radius
       (stroke_attribs col (Some 35%Z) None)
  >> add_text label (text_attribs 3.5 col None) (cx + radius + 5, cy) MIDDLE_LEFT.

(** [add_cb_symbol(msp, x, y, label="CB", color=WHITE)] *)
Definition add_cb_symbol (x y : R) (label : string) (col : Z) : step :=
  let s := 4 in
  add_lwpolyline
    [ (x - s, y - s / 2); (x + s, y - s / 2); (x + s, y + s / 2);
      (x - s, y + s / 2); (x - s, y - s / 2) ]
    (stroke_attribs col (Some 18%Z) None)
  >> add_text label (text_attribs 2.5 col None) (x, y) MIDDLE_CENTER.

(** The [lineweight] values the sheets give to [msp.add_line] calls, which
    draw the ordinary connections between symbols. *)
Definition wiring_lineweights : list Z := [13%Z; 18%Z; 25%Z; 35%Z].

(** *** Document setup *)

Record document : Type := mkDocument {
  units : Z;
  styles : list (string * string);           (* name, font *)
  linetypes : list (string * list R);        (* name, pattern *)
  entities : modelspace
}.

(** [ezdxf.units.MM] *)
Definition MM : Z := 4.

Definition has_entry {A : Type} (name : string) (table : list (string * A))
  : bool :=
  existsb (fun e => String.eqb (fst e) name) table.

(** [create_text_style(doc, name, font="Arial")] *)
Definition create_text_style (name font : string) (doc : document) : document :=
  if has_entry name (styles doc) then doc
  else mkDocument (units doc) (styles doc ++ [(name, font)]) (linetypes doc)
                  (entities doc).

Definition add_linetype (name : string) (pattern : list R) (doc : document)
  : document :=
  if has_entry name (linetypes doc) then doc
  else mkDocument (units doc) (styles doc) (linetypes doc ++ [(name, pattern)])
                  (entities doc).

(** [setup_doc()], from the document [blank] that [ezdxf.new("R2018")]
    returns. *)
Definition setup_doc (blank : document) : document :=
  let doc := mkDocument MM (styles blank) (linetypes blank) (entities blank) in
  let doc := create_text_style "TITLE" "Arial" doc in
  let doc := create_text_style "NOTES" "Arial" doc in
  let doc := add_linetype "DASHED" [10.0; 5.0; -5.0] doc in
  let doc := add_linetype "DASHDOT" [14.0; 5.0; -3.0; 0.0; -3.0] doc in
  doc.

(** Drawing on [doc.modelspace()]. *)
Definition draw_on (doc : document) (s : step) : document :=
  mkDocument (units doc) (styles doc) (linetypes doc) (s (entities doc)).

(** *** Legends

    The legend loop of [generate_floor_plan], for any [legend_items]. *)
Definition floor_plan_legend (lx ly : R) (legend_items : list (Z * string))
  : step :=
  for_each (enumerate legend_items)
    (fun '(i, (c, t)) =>
       let y := ly - 15 - INR i * 12 in
       add_lwpolyline
         [ (lx, y); (lx + 10, y); (lx + 10, y + 6); (lx, y + 6); (lx, y) ]
         (stroke_attribs c None None)
       >> add_text t (text_attribs 4 WHITE None) (lx + 15, y + 3) LEFT).

(** The legend loop shared, verbatim, by [generate_network],
    [generate_cooling] and [generate_fire], for any [legend]. *)
Definition sheet_legend (lx ly : R) (legend : list (Z * string)) : step :=
  for_each (enumerate legend)
    (fun '(i, (c, t)) =>
       let y := ly - 12 - INR i * 10 in
       add_lwpolyline
         [ (lx, y); (lx + 8, y); (lx + 8, y + 5); (lx, y + 5); (lx, y) ]
         (stroke_attribs c None None)
       >> add_text t (text_attribs 3.5 WHITE None) (lx + 12, y + 2.5) LEFT).

(** *** Drawing composers and batch driver

    Each composer sets up the document, draws the sheet frame, runs a long
    literal script of [msp.add_...] calls, and (on four sheets) ends with a
    legend.  Frame and legend are transcribed; the script in between is a
    parameter: any sequence of entities. *)

Record sheet_scripts : Type := mkScripts {
  floor_plan_script : list entity;
  electrical_script : list entity;
  network_script : list entity;
  cooling_script : list entity;
  fire_script : list entity
}.

Definition add_entities (es : list entity) : step := fun msp => msp ++ es.

(** [Path("build/dxf")] and [OUTPUT_DIR / name] *)
Definition OUTPUT_DIR : string := "build/dxf".

Definition path_div (dir name : string) : string := (dir ++ "/" ++ name)%string.

Section Composers.

Variable blank : document.
Variable scripts : sheet_scripts.

(** Each [generate_...] returns here what it hands to [doc.saveas]: the path
    and the document. *)
Definition generate_floor_plan : string * document :=
  let doc := setup_doc blank in
  let W := 1180 in
  let H := 840 in
  let lx := 680 in
  let ly := 810 in
  let legend_items :=
    [ (CYAN, "Data Hall"); (YELLOW, "UPS / Power Room");
      (GREEN, "Generator Yard"); (BLUE, "NOC / Operations");
      (MAGENTA, "Meet-Me Room / Electrical"); (RED, "Fire Control");
      (GRAY, "Support / Non-Critical") ] in
  let doc :=
    draw_on doc
      (add_border W H
       >> add_title_block "SAT-DC-FP-001" "DATA CENTER FLOOR PLAN"
            "GENERAL ARRANGEMENT" "UPTIME TIER III" 600 10
       >> add_entities (floor_plan_script scripts)
       (* Legend *)
       >> add_text "LEGEND" (text_attribs 6 WHITE (Some "TITLE")) (lx, ly) LEFT
       >> add_line (lx, ly - 5) (lx + 160, ly - 5) (stroke_attribs WHITE None None)
       >> floor_plan_legend lx ly legend_items) in
  (path_div OUTPUT_DIR "SAT-DC-FP-001_Floor-Plan.dxf", doc).

Definition generate_electrical : string * document :=
  let doc := setup_doc blank in
  let W := 1180 in
  let H := 840 in
  let doc :=
    draw_on doc
      (add_border W H
       >> add_title_block "SAT-DC-EL-001" "ELECTRICAL SINGLE LINE DIAGRAM"
            "MAIN POWER DISTRIBUTION" "IEC 60617 / IEEE C2" 600 10
       >> add_entities (electrical_script scripts)) in
  (path_div OUTPUT_DIR "SAT-DC-EL-001_Electrical-SLD.dxf", doc).

Definition generate_network : string * document :=
  let doc := setup_doc blank in
  let W := 1180 in
  let H := 840 in
  let lx := 620 in
  let ly := 810 in
  let legend :=
    [ (BLUE, "ISP / WAN Cloud"); (MAGENTA, "Meet-Me Room");
      (YELLOW, "Border Router"); (RED, "Firewall (HA Pair)");
      (GREEN, "Core Switch (L3)"); (BLUE, "Aggregation Switch");
      (GRAY, "ToR Access Switch"); (WHITE, "Server Rack Row") ] in
  let doc :=
    draw_on doc
      (add_border W H
       >> add_title_block "SAT-DC-NT-001" "NETWORK TOPOLOGY DIAGRAM"
            "LOGICAL & PHYSICAL" "TIA-942 / ISO/IEC 24764" 600 10
       >> add_entities (network_script scripts)
       (* Legend *)
       >> add_text "LEGEND (PER TIA-942)" (text_attribs 5 WHITE (Some "TITLE"))
            (lx, ly) LEFT
       >> sheet_legend lx ly legend) in
  (path_div OUTPUT_DIR "SAT-DC-NT-001_Network-Topology.dxf", doc).

Definition generate_cooling : string * document :=
  let doc := setup_doc blank in
  let W := 1180 in
  let H := 840 in
  let lx := 620 in
  let ly := 810 in
  let legend :=
    [ (CYAN, "Cooling Tower / Primary Pipe");
      (GREEN, "Chiller / Secondary Pipe");
      (RED, "CRAH Unit / Hot Return");
      (BLUE, "Cold Aisle Supply");
      (MAGENTA, "Environmental Monitoring") ] in
  let doc :=
    draw_on doc
      (add_border W H
       >> add_title_block "SAT-DC-CL-001" "HVAC & COOLING SYSTEM DIAGRAM"
            "CHILLED WATER DISTRIBUTION" "ASHRAE TC 9.9" 600 10
       >> add_entities (cooling_script scripts)
       (* Legend *)
       >> add_text "LEGEND (PER ASHRAE TC 9.9)"
            (text_attribs 5 WHITE (Some "TITLE")) (lx, ly) LEFT
       >> sheet_legend lx ly legend) in
  (path_div OUTPUT_DIR "SAT-DC-CL-001_Cooling-System.dxf", doc).

Definition generate_fire : string * document :=
  let doc := setup_doc blank in
  let W := 1180 in
  let H := 840 in
  let lx := 620 in
  let ly := 810 in
  let legend :=
    [ (RED, "FACP / Signal Line");
      (YELLOW, "VESDA Detection Zone");
      (GREEN, "Clean Agent Suppression");
      (BLUE, "Pre-Action Sprinkler");
      (MAGENTA, "Emergency Power Off (EPO)");
      (WHITE, "BMS Integration") ] in
  let stds :=
    [ "NFPA 75  — IT Equipment Protection";
      "NFPA 2001 — Clean Agent Systems";
      "NFPA 13  — Sprinkler Systems";
      "NFPA 72  — Fire Alarm & Signaling" ] in
  let doc :=
    draw_on doc
      (add_border W H
       >> add_title_block "SAT-DC-FS-001" "FIRE DETECTION & SUPPRESSION"
            "ZONE MAP & SCHEMATIC" "NFPA 75 / NFPA 2001" 600 10
       >> add_entities (fire_script scripts)
       (* Legend *)
       >> add_text "LEGEND (PER NFPA 75/2001)"
            (text_attribs 5 WHITE (Some "TITLE")) (lx, ly) LEFT
       >> sheet_legend lx ly legend
       (* Standards *)
       >> add_text "APPLICABLE STANDARDS:" (text_attribs 4 WHITE (Some "TITLE"))
            (lx, ly - 85) LEFT
       >> for_each (enumerate stds)
            (fun '(i, s) =>
               add_text s (text_attribs 3 WHITE None)
                 (lx, ly - 97 - INR i * 8) LEFT)) in
  (path_div OUTPUT_DIR "SAT-DC-FS-001_Fire-Suppression.dxf", doc).

(** The [__main__] block: the files saved, in order.  Console output is left
    out. *)
Definition main : list (string * document) :=
  [ generate_floor_plan;
    generate_electrical;
    generate_network;
    generate_cooling;
    generate_fire ].

End Composers.

(** *** Vocabulary for stating properties of the DXF renderer *)

(** A step only appends when it adds to any model space the entities it
    adds to the empty one. *)
Definition appends_only (s : step) : Prop :=
  forall msp : modelspace, s msp = msp ++ s [].

(** The [k]-th, [k+1]-th, ... pairs of entities of a two-entity loop body. *)
Fixpoint pairs_from {A : Type} (first second : nat -> A -> entity) (k : nat)
  (xs : list A) : list entity :=
  match xs with
  | [] => []
  | x :: rest => first k x :: second k x :: pairs_from first second (S k) rest
  end.

(** Entry [i] of the floor-plan legend: its row, swatch and label. *)
Definition fp_row (ly : R) (i : nat) : R := ly - 15 - INR i * 12.

Definition fp_swatch (lx ly : R) (i : nat) (e : Z * string) : entity :=
  let y := fp_row ly i in
  LWPolyline [ (lx, y); (lx + 10, y); (lx + 10, y + 6); (lx, y + 6); (lx, y) ]
             (stroke_attribs (fst e) None None).

Definition fp_label (lx ly : R) (i : nat) (e : Z * string) : entity :=
  Text (snd e) (text_attribs 4 WHITE None) (lx + 15, fp_row ly i + 3) LEFT.

(** Entry [i] of the legend of the network, cooling and fire sheets. *)
Definition sheet_row (ly : R) (i : nat) : R := ly - 12 - INR i * 10.

Definition sheet_swatch (lx ly : R) (i : nat) (e : Z * string) : entity :=
  let y := sheet_row ly i in
  LWPolyline [ (lx, y); (lx + 8, y); (lx + 8, y + 5); (lx, y + 5); (lx, y) ]
             (stroke_attribs (fst e) None None).

Definition sheet_label (lx ly : R) (i : nat) (e : Z * string) : entity :=
  Text (snd e) (text_attribs 3.5 WHITE None) (lx + 12, sheet_row ly i + 2.5)
       LEFT.

(** The drawing-number and date cells of the title block that the composers
    place at (600, 10). *)
Definition dwg_no_cell (dwg_no : string) : entity :=
  Text ("DWG NO: " ++ dwg_no)%string (text_attribs 6 WHITE None)
       (600 + 210, 10 + 75) LEFT.

Definition date_cell : entity :=
  Text "DATE: 2026-02-27" (text_attribs 6 WHITE None) (600 + 450, 10 + 75) LEFT.

Definition entity_text (e : entity) : option string :=
  match e with
  | Text s _ _ _ => Some s
  | _ => None
  end.

(** *** The rack rows of [generate_floor_plan]

    The loop over [row_labels] inside the data hall, for any list of
    labels; [rack_rows_turn] is the loop body, which reads
    [len(row_labels)]. *)
Definition rack_rows_turn (len_row_labels : nat) (e : nat * string) : step :=
  let row_y := 660 in
  let '(i, label) := e in
  let ry := row_y - INR i * 52 in
  let rack_ids :=
    String.concat " | "
      (map (fun j => (label ++ fmt_02d j)%string) (seq 1 12)) in
  (* Rack row *)
  add_lwpolyline
    [ (160, ry); (500, ry); (500, ry + 12); (160, ry + 12); (160, ry) ]
    (stroke_attribs WHITE (Some 35%Z) None)
  >> add_text ("ROW " ++ label ++ " — " ++ rack_ids)%string
       (text_attribs 2.5 WHITE None) (330, ry + 6) MIDDLE_CENTER
  (* Hot/cold aisle labels (between rows) *)
  >> (if ((i mod 2 =? 0) && (i <? len_row_labels - 1))%nat%bool
      then add_text "COLD AISLE" (text_attribs 2.5 BLUE None)
             (165, ry - 5) LEFT
      else if ((i mod 2 =? 1) && (i <? len_row_labels - 1))%nat%bool
      then add_text "HOT AISLE (CONTAINED)" (text_attribs 2.5 RED None)
             (165, ry - 5) LEFT
      else skip).

Definition rack_rows (row_labels : list string) : step :=
  for_each (enumerate row_labels) (rack_rows_turn (List.length row_labels)).

(** *** More vocabulary *)

(** The points that fix where an entity lies. *)
Definition entity_points (e : entity) : list point :=
  match e with
  | LWPolyline pts _ => pts
  | Line p1 p2 _ => [ p1; p2 ]
  | Circle (cx, cy) r _ => [ (cx - r, cy - r); (cx + r, cy + r) ]
  | Text _ _ p _ => [ p ]
  end.

Definition in_box (x0 y0 x1 y1 : R) (p : point) : Prop :=
  x0 <= fst p <= x1 /\ y0 <= snd p <= y1.

(** An entity with its string blanked. *)
Definition layout (e : entity) : entity :=
  match e with
  | Text _ a p al => Text EmptyString a p al
  | _ => e
  end.

Definition entity_attribs (e : entity) : dxfattribs :=
  match e with
  | LWPolyline _ a => a
  | Line _ _ a => a
  | Circle _ _ a => a
  | Text _ a _ _ => a
  end.

(** Every text style and line type an entity names is in the document's
    tables. *)
Definition registered (doc : document) (e : entity) : Prop :=
  (forall s, style (entity_attribs e) = Some s ->
             has_entry s (styles doc) = true)
  /\ (forall l, linetype (entity_attribs e) = Some l ->
                has_entry l (linetypes doc) = true).

(** A path is closed when it ends where it starts. *)
Definition closed_path (pts : list point) : Prop :=
  match pts with
  | [] => False
  | p :: _ => last pts p = p
  end.

Definition is_text (s : string) (e : entity) : bool :=
  match e with
  | Text t _ _ _ => String.eqb t s
  | _ => false
  end.

Definition count_text (s : string) (es : list entity) : nat :=
  List.length (filter (is_text s) es).

(** The boxes of the floor plan's data hall and of a title block at an
    offset: lower left and upper right corner. *)
Definition within (lo hi : point) (e : entity) : Prop :=
  Forall (in_box (fst lo) (snd lo) (fst hi) (snd hi)) (entity_points e).

Definition names (A : Type) (table : list (string * A)) : list string :=
  map fst table.

End Dxf.

(** ** The batch as a whole *)

(** The five sheets: declared drawing number and output file stem. *)
Definition sheet_numbers : list string :=
  [ "SAT-DC-FP-001"; "SAT-DC-EL-001"; "SAT-DC-NT-001"; "SAT-DC-CL-001";
    "SAT-DC-FS-001" ].

Definition sheet_names : list string :=
  [ "SAT-DC-FP-001_Floor-Plan"; "SAT-DC-EL-001_Electrical-SLD";
    "SAT-DC-NT-001_Network-Topology"; "SAT-DC-CL-001_Cooling-System";
    "SAT-DC-FS-001_Fire-Suppression" ].

(** Writing the batch's files with a serialiser [save], which may consult
    the run's environment [e] (clock, random source). *)
Definition save_all {env doc bytes : Type} (save : env -> doc -> bytes)
  (e : env) (files : list (string * doc)) : list (string * bytes) :=
  map (fun '(path, d) => (path, save e d)) files.

(** *** What a run adds to the files

    Both libraries stamp each file they write with data of the run that
    writes it.  [canvas.Canvas(filepath, pagesize=landscape(A4))] is created
    without [invariant=1], so [pdf.save()] writes the time of the run into
    the document information (CreationDate, ModDate) and derives the file
    identifier from it; [ezdxf.new("R2018")] and [doc.saveas(out)] write the
    time of the run ($TDCREATE, $TDUPDATE) and fresh GUIDs into the header.
    Nothing in either script switches this off. *)
Record run_data : Type := mkRunData {
  clock : Z;       (* the time of the run *)
  fresh : Z        (* the identifiers drawn in the run *)
}.

(** A file as written: what the library adds of its own, and the document it
    was given. *)
Record written (doc : Type) : Type := mkWritten {
  stamp : run_data;
  payload : doc
}.

Arguments mkWritten {doc} _ _.
Arguments stamp {doc} _.
Arguments payload {doc} _.

(** [pdf.save()] and [doc.saveas(out)] in a run with data [r]. *)
Definition pdf_save (r : run_data) (d : Pdf.pdf_document)
  : written Pdf.pdf_document :=
  mkWritten r d.

Definition dxf_saveas (r : run_data) (d : Dxf.document)
  : written Dxf.document :=
  mkWritten r d.

(** * Properties *)

Ltac run_program :=
  cbn [Pdf.run Pdf.exec Pdf.paint Pdf.paint_text Pdf.set_gs Pdf.page Pdf.gs
       Pdf.saved Pdf.strokeColor Pdf.fillColor Pdf.lineWidth Pdf.dash
       Pdf.fontName Pdf.fontSize Pdf.ctm Pdf.current_stroke app];
  repeat rewrite <- app_assoc; cbn [app].

Ltac by_shape shape :=
  unfold Pdf.draw_legend_item;
  destruct (String.eqb shape "rect");
  [|destruct (String.eqb shape "line");
    [|destruct (String.eqb shape "dash");
      [|destruct (String.eqb shape "circle")]]].

Ltac run_steps :=
  unfold Dxf.seq_step, Dxf.add_lwpolyline, Dxf.add_line, Dxf.add_circle,
         Dxf.add_text, Dxf.add_entities, Dxf.skip;
  repeat rewrite <- app_assoc; cbn [app].

(** ** Strings *)

Lemma prefix_refl (s : string) : prefix s s = true.
Proof.
  induction s as [|a s IH]; cbn; [reflexivity|].
  destruct (ascii_dec a a) as [_|Hne]; [exact IH|contradiction].
Qed.

Lemma contains_refl (s : string) : contains s s = true.
Proof. destruct s; cbn [contains]; rewrite prefix_refl; reflexivity. Qed.

Lemma contains_append (p s : string) : contains (p ++ s) s = true.
Proof.
  induction p as [|a p IH]; cbn [String.append].
  - apply contains_refl.
  - cbn [contains]. rewrite IH. apply orb_true_r.
Qed.

(** ** The PDF renderer *)

Module PdfFacts.
Import Pdf.

Lemma run_app (p q : program) (c : canvas) : run (p ++ q) c = run q (run p c).
Proof.
  revert c; induction p as [|i p IH]; intro c; [reflexivity|].
  cbn [app run]. apply IH.
Qed.

(** No canvas call removes a mark from the page. *)
Lemma exec_extends (i : instr) (c : canvas) :
  exists l, page (exec i c) = page c ++ l.
Proof.
  destruct i; cbn [exec set_gs paint paint_text page];
    try (exists []; now rewrite app_nil_r);
    try (eexists; reflexivity).
  destruct (saved c); exists []; now rewrite app_nil_r.
Qed.

Lemma run_extends (p : program) (c : canvas) :
  exists l, page (run p c) = page c ++ l.
Proof.
  revert c. induction p as [|i p IH]; intro c.
  - exists []. now rewrite app_nil_r.
  - cbn [run]. destruct (exec_extends i c) as [l1 H1].
    destruct (IH (exec i c)) as [l2 H2].
    exists (l1 ++ l2). now rewrite H2, H1, app_assoc.
Qed.

Lemma run_keeps_marks (p : program) (c : canvas) (m : mark) :
  In m (page c) -> In m (page (run p c)).
Proof.
  intro H. destruct (run_extends p c) as [l ->]. apply in_or_app. now left.
Qed.

(** *** The arrow *)

Lemma mm_pos : 0 < mm.
Proof. unfold mm. lra. Qed.

Lemma polar_distance (x y a t : R) :
  0 <= a -> distance (x + a * cos t, y + a * sin t) (x, y) = a.
Proof.
  intro Ha. unfold distance. cbn [fst snd].
  replace ((x + a * cos t - x) * (x + a * cos t - x) +
           (y + a * sin t - y) * (y + a * sin t - y))
    with (a * a * (Rsqr (sin t) + Rsqr (cos t))) by (unfold Rsqr; ring).
  rewrite sin2_cos2, Rmult_1_r. apply sqrt_square. exact Ha.
Qed.

Lemma reversed_direction (x a t : R) :
  x - a * cos t = x + a * cos (t + PI) /\ x - a * sin t = x + a * sin (t + PI).
Proof. rewrite neg_cos, neg_sin. split; ring. Qed.

(** C1.  For all endpoints, colour and width, [draw_arrow] paints exactly the
    stroked segment from p1 to p2 and then a filled, unstroked, closed
    triangle whose first vertex is p2 and whose other two vertices are at
    distance [3 * mm] (3 mm in page units) from p2 in the directions
    [theta + PI - 0.3] and [theta + PI + 0.3], where
    [theta = atan2 (y2 - y1) (x2 - x1)]. *)
Theorem arrow_geometry (x1 y1 x2 y2 : R) (col : color) (width : R) (c : canvas) :
  let theta := atan2 (y2 - y1) (x2 - x1) in
  let va := (x2 + 3 * mm * cos (theta + PI - 0.3),
             y2 + 3 * mm * sin (theta + PI - 0.3)) in
  let vb := (x2 + 3 * mm * cos (theta + PI + 0.3),
             y2 + 3 * mm * sin (theta + PI + 0.3)) in
  page (run (draw_arrow x1 y1 x2 y2 col width) c) =
    page c ++
    [ mkMark (GLine x1 y1 x2 y2)
             (Some (mkStroke col width (dash (gs c)))) None (ctm (gs c));
      mkMark (GPath [ (x2, y2); va; vb ] true)
             None (Some col) (ctm (gs c)) ]
  /\ distance va (x2, y2) = 3 * mm
  /\ distance vb (x2, y2) = 3 * mm.
Proof.
  intros theta va vb. split; [|split].
  - unfold draw_arrow. run_program. fold theta. unfold va, vb.
    replace (theta + PI - 0.3) with (theta - 0.3 + PI) by ring.
    replace (theta + PI + 0.3) with (theta + 0.3 + PI) by ring.
    destruct (reversed_direction x2 (3 * mm) (theta - 0.3)) as [-> _].
    destruct (reversed_direction y2 (3 * mm) (theta - 0.3)) as [_ ->].
    destruct (reversed_direction x2 (3 * mm) (theta + 0.3)) as [-> _].
    destruct (reversed_direction y2 (3 * mm) (theta + 0.3)) as [_ ->].
    reflexivity.
  - apply polar_distance. pose proof mm_pos. lra.
  - apply polar_distance. pose proof mm_pos. lra.
Qed.

Lemma atan2_origin : atan2 0 0 = 0.
Proof.
  unfold atan2.
  destruct (Rlt_dec 0 0) as [H|_]; [lra|].
  destruct (Rlt_dec 0 0) as [H|_]; [lra|]. reflexivity.
Qed.

Lemma small_angle : 0 < 0.3 < PI / 2.
Proof. pose proof PI2_1. lra. Qed.

(** C9.  With p1 = p2 the angle is [atan2 0 0 = 0]; [draw_arrow] is defined
    there (it is a total function) and paints the zero-length segment at the
    point and a head triangle with apex at the point whose two base vertices
    are displaced by [3 * mm * cos 0.3 > 0] in the negative x direction and
    by [3 * mm * sin 0.3 > 0] up and down. *)
Theorem arrow_coincident_endpoints
  (x y : R) (col : color) (width : R) (c : canvas) :
  atan2 (y - y) (x - x) = 0
  /\ page (run (draw_arrow x y x y col width) c) =
       page c ++
       [ mkMark (GLine x y x y)
                (Some (mkStroke col width (dash (gs c)))) None (ctm (gs c));
         mkMark (GPath [ (x, y);
                         (x - 3 * mm * cos 0.3, y + 3 * mm * sin 0.3);
                         (x - 3 * mm * cos 0.3, y - 3 * mm * sin 0.3) ] true)
                None (Some col) (ctm (gs c)) ]
  /\ 0 < 3 * mm * cos 0.3
  /\ 0 < 3 * mm * sin 0.3.
Proof.
  assert (Hang : atan2 (y - y) (x - x) = 0).
  { replace (y - y) with 0 by ring. replace (x - x) with 0 by ring.
    apply atan2_origin. }
  pose proof small_angle as [Hlo Hhi]. pose proof mm_pos as Hmm.
  pose proof PI_RGT_0 as Hpi.
  split; [exact Hang|split; [|split]].
  - unfold draw_arrow. run_program. rewrite Hang.
    replace (0 - 0.3) with (Ropp 0.3) by lra.
    replace (0 + 0.3) with 0.3 by lra.
    rewrite cos_neg, sin_neg.
    replace (y - 3 * mm * - sin 0.3) with (y + 3 * mm * sin 0.3) by ring.
    reflexivity.
  - apply Rmult_lt_0_compat; [lra|]. apply cos_gt_0; lra.
  - apply Rmult_lt_0_compat; [lra|]. apply sin_gt_0; lra.
Qed.

(** *** Rooms, racks and legend entries *)

Lemma draw_room_marks x y w h label ref_id fill text_color c :
  page (run (draw_room x y w h label ref_id fill text_color) c) =
  page c ++
  [ mkMark (GRect x y w h) (Some (mkStroke C_WALL 1.2 (dash (gs c))))
           (Some fill) (ctm (gs c));
    mkMark (GText AnchorCentre (x + w / 2) (y + h / 2 + 2) label
                  "Helvetica-Bold" 7)
           None (Some text_color) (ctm (gs c)) ]
  ++ (if truthy ref_id
      then [ mkMark (GText AnchorCentre (x + w / 2) (y + h / 2 - 6)
                           (text_of ref_id) "Helvetica" 5.5)
                    None (Some (HexColor "#666666")) (ctm (gs c)) ]
      else []).
Proof.
  unfold draw_room. destruct (truthy ref_id); run_program; reflexivity.
Qed.

Lemma rack_paints_by_parameters x y w h label fill :
  paints_by_parameters (draw_rack x y w h label fill).
Proof.
  intro c. unfold draw_rack, canvas_with. run_program. repeat split.
Qed.

Lemma rack_sets_state x y w h label fill c :
  gs (run (draw_rack x y w h label fill) c) =
  mkGstate C_RACK white 0.8 (dash (gs c)) "Helvetica-Bold" 4.5 (ctm (gs c)).
Proof. reflexivity. Qed.

Lemma room_paints_by_parameters x y w h label ref_id fill text_color :
  paints_by_parameters (draw_room x y w h label ref_id fill text_color).
Proof.
  intro c. unfold draw_room, canvas_with.
  destruct (truthy ref_id); run_program; repeat split.
Qed.

Lemma legend_item_paints_by_parameters x y col label shape :
  paints_by_parameters (draw_legend_item x y col label shape).
Proof.
  intro c. unfold canvas_with. by_shape shape; run_program; repeat split.
Qed.

Lemma legend_item_sets_state x y col label shape c :
  let g := gs (run (draw_legend_item x y col label shape) c) in
  fillColor g = black /\ fontName g = "Helvetica" /\ fontSize g = 5.5.
Proof. cbv zeta. by_shape shape; run_program; repeat split. Qed.

(** A legend entry adds one left-anchored string, 0.5 mm above its row. *)
Lemma legend_item_row x y col label shape c :
  label_rows (page (run (draw_legend_item x y col label shape) c)) =
  label_rows (page c) ++ [y + 0.5 * mm].
Proof.
  unfold label_rows.
  by_shape shape; run_program; rewrite flat_map_app; reflexivity.
Qed.

Ltac eval_legend_rows :=
  repeat rewrite run_app; repeat rewrite legend_item_row;
  cbn [label_rows flat_map page new_canvas app steps_down List.length].

(** The legend blocks of the five sheets: each paints five entries whose
    labels step down by 5 mm, more than the 3 mm height of a swatch. *)
Lemma pdf_legend_rows (lx ly : R) :
  let rows legend := label_rows (page (run (legend lx ly) new_canvas)) in
  (List.length (rows floor_plan_legend) = 5%nat
   /\ List.length (rows electrical_legend) = 5%nat
   /\ List.length (rows network_legend) = 5%nat
   /\ List.length (rows cooling_legend) = 5%nat
   /\ List.length (rows fire_legend) = 5%nat)
  /\ steps_down (5 * mm) (rows floor_plan_legend)
  /\ steps_down (5 * mm) (rows electrical_legend)
  /\ steps_down (5 * mm) (rows network_legend)
  /\ steps_down (5 * mm) (rows cooling_legend)
  /\ steps_down (5 * mm) (rows fire_legend)
  /\ 3 * mm < 5 * mm.
Proof.
  pose proof mm_pos as Hmm. cbv zeta.
  unfold floor_plan_legend, electrical_legend, network_legend,
         cooling_legend, fire_legend.
  eval_legend_rows. repeat split; lra.
Qed.

(** *** The dash pattern *)

Lemma exec_dash_free i c :
  touches_dash i = false ->
  dash (gs (exec i c)) = dash (gs c)
  /\ exists l, page (exec i c) = page c ++ l
               /\ (dash (gs c) = Solid -> Forall solid_stroke l).
Proof.
  intro Hi.
  destruct i; try discriminate Hi;
    cbn [exec set_gs paint paint_text gs page dash];
    (split; [reflexivity|]);
    try (exists []; split; [now rewrite app_nil_r | constructor]);
    (eexists; split; [reflexivity|]; intro Hs; constructor; [|constructor];
     unfold solid_stroke; cbn [m_stroke]; try exact I;
     try (destruct stroke; [cbn; exact Hs | exact I]); cbn; exact Hs).
Qed.

Lemma run_dash_free p c :
  dash_free p = true ->
  dash (gs (run p c)) = dash (gs c)
  /\ exists l, page (run p c) = page c ++ l
               /\ (dash (gs c) = Solid -> Forall solid_stroke l).
Proof.
  revert c. induction p as [|i p IH]; intros c Hp.
  - split; [reflexivity|]. exists [].
    split; [now rewrite app_nil_r|constructor].
  - cbn [dash_free forallb] in Hp. apply andb_prop in Hp as [Hi Hp].
    apply negb_true_iff in Hi.
    destruct (exec_dash_free i c Hi) as [Hd (l1 & Hl1 & Hs1)].
    destruct (IH (exec i c) Hp) as [Hd' (l2 & Hl2 & Hs2)].
    cbn [run]. split; [congruence|].
    exists (l1 ++ l2). split.
    + rewrite Hl2, Hl1, app_assoc. reflexivity.
    + intro Hs. apply Forall_app. split; [auto|]. apply Hs2. congruence.
Qed.

Lemma undashed_helper_dash_free h :
  sets_dash h = false -> dash_free (program_of h) = true.
Proof.
  destruct h; cbn [sets_dash program_of]; intro H; try discriminate H;
    try reflexivity.
  - unfold draw_room. destruct (truthy ref_id); reflexivity.
  - unfold draw_legend_item. rewrite H.
    destruct (String.eqb shape "rect"); [reflexivity|].
    destruct (String.eqb shape "line"); [reflexivity|].
    destruct (String.eqb shape "circle"); reflexivity.
Qed.

Lemma dashed_rect_resets x y w h col width c :
  dash (gs (run (draw_dashed_rect x y w h col width) c)) = Solid.
Proof. reflexivity. Qed.

Lemma legend_dash_resets x y col label c :
  dash (gs (run (draw_legend_item x y col label "dash") c)) = Solid.
Proof. reflexivity. Qed.

Lemma helper_keeps_solid h c :
  dash (gs c) = Solid -> dash (gs (run (program_of h) c)) = Solid.
Proof.
  intro Hs. destruct (sets_dash h) eqn:Hh.
  - destruct h; try discriminate Hh; cbn [program_of sets_dash] in *.
    + apply dashed_rect_resets.
    + apply String.eqb_eq in Hh. subst shape. apply legend_dash_resets.
  - destruct (run_dash_free (program_of h) c (undashed_helper_dash_free h Hh))
      as [Hd _].
    congruence.
Qed.

Lemma helpers_keep_solid calls c :
  dash (gs c) = Solid ->
  dash (gs (run (flat_map program_of calls) c)) = Solid.
Proof.
  revert c. induction calls as [|h rest IH]; intros c Hs; [exact Hs|].
  cbn [flat_map]. rewrite run_app. apply IH. now apply helper_keeps_solid.
Qed.

(** C10.  The two helpers that set a dash pattern ([draw_dashed_rect], and
    [draw_legend_item] with shape "dash") leave the canvas solid whatever
    state they start from; hence, starting solid, the dash state is solid
    after every prefix of any sequence of helper calls, and a helper that is
    not meant to draw dashed then paints only solid strokes. *)
Theorem dash_solid_between_helpers :
  (forall x y w h col width c,
      dash (gs (run (draw_dashed_rect x y w h col width) c)) = Solid)
  /\ (forall x y col label c,
      dash (gs (run (draw_legend_item x y col label "dash") c)) = Solid)
  /\ (forall calls n c,
      dash (gs c) = Solid ->
      dash (gs (run (flat_map program_of (firstn n calls)) c)) = Solid)
  /\ (forall h c,
      sets_dash h = false -> dash (gs c) = Solid ->
      exists l, page (run (program_of h) c) = page c ++ l
                /\ Forall solid_stroke l).
Proof.
  split; [exact dashed_rect_resets|].
  split; [exact legend_dash_resets|].
  split.
  - intros calls n c Hs. now apply helpers_keep_solid.
  - intros h c Hh Hs.
    destruct (run_dash_free (program_of h) c (undashed_helper_dash_free h Hh))
      as [_ (l & Hl & Hf)].
    exists l. split; [exact Hl|]. exact (Hf Hs).
Qed.

Lemma dash_solid_between_helpers_witness :
  dash (gs (run (flat_map program_of
                   (firstn 2 [ CallDashedRect 0 0 10 10 C_DASHED 0.6;
                               CallRoom 0 0 10 10 "UPS" None C_WALL_FILL C_WALL;
                               CallLegendItem 0 0 C_COLD "Cold" "dash" ]))
                new_canvas)) = Solid.
Proof.
  apply (proj1 (proj2 (proj2 dash_solid_between_helpers))). reflexivity.
Defined.

(** *** Title block *)

Lemma pdf_title_block_cells dwg_no title subtitle standard rev scale c :
  ctm (gs c) = [] ->
  let c' := run (draw_title_block dwg_no title subtitle standard rev scale) c in
  In (dwg_no_cell dwg_no) (page c') /\ In date_cell (page c').
Proof.
  intros Hc. cbv zeta. unfold draw_title_block, dwg_no_cell, date_cell.
  run_program. rewrite Hc.
  split; apply in_or_app; right; cbn [In];
    repeat (first [left; reflexivity | right]).
Qed.

Lemma composer_cells dwg_no title subtitle standard (script : program) :
  let c := run (draw_border
                ++ draw_title_block dwg_no title subtitle standard "A" "NTS"
                ++ draw_grid_refs ++ script) new_canvas in
  In (dwg_no_cell dwg_no) (page c) /\ In date_cell (page c).
Proof.
  cbv zeta. rewrite !run_app.
  destruct (pdf_title_block_cells dwg_no title subtitle standard "A" "NTS"
              (run draw_border new_canvas) eq_refl) as [H1 H2].
  split; do 2 apply run_keeps_marks; assumption.
Qed.

End PdfFacts.

(** ** The DXF renderer *)

Module DxfFacts.
Import Dxf.

Section PairLoop.

Variable A : Type.
Variables first second : nat -> A -> entity.
Variable body : nat * A -> step.
Hypothesis body_emits :
  forall i x msp, body (i, x) msp = msp ++ [first i x; second i x].

Lemma for_each_pairs (k : nat) (xs : list A) (msp : modelspace) :
  for_each (enumerate_from k xs) body msp = msp ++ pairs_from first second k xs.
Proof.
  revert k msp. induction xs as [|x rest IH]; intros k msp.
  - cbn. now rewrite app_nil_r.
  - cbn [enumerate_from for_each pairs_from]. unfold seq_step.
    rewrite body_emits, IH, <- app_assoc. reflexivity.
Qed.

Lemma pairs_from_length (k : nat) (xs : list A) :
  List.length (pairs_from first second k xs) = (2 * List.length xs)%nat.
Proof.
  revert k. induction xs as [|x rest IH]; intro k; cbn [pairs_from List.length].
  - reflexivity.
  - rewrite IH. lia.
Qed.

Lemma pairs_from_nth (k i : nat) (xs : list A) (x : A) :
  nth_error xs i = Some x ->
  nth_error (pairs_from first second k xs) (2 * i) = Some (first (k + i) x)
  /\ nth_error (pairs_from first second k xs) (2 * i + 1)
     = Some (second (k + i) x).
Proof.
  revert k i. induction xs as [|x0 rest IH]; intros k i H.
  - destruct i; discriminate.
  - destruct i as [|i].
    + cbn in H. injection H as ->. rewrite Nat.add_0_r. split; reflexivity.
    + cbn [nth_error] in H. destruct (IH (S k) i H) as [H1 H2].
      replace (2 * S i)%nat with (S (S (2 * i))) by lia.
      replace (S (S (2 * i)) + 1)%nat with (S (S (2 * i + 1))) by lia.
      replace (k + S i)%nat with (S k + i)%nat by lia.
      cbn [pairs_from nth_error]. split; assumption.
Qed.

End PairLoop.

Lemma floor_plan_legend_emits lx ly items msp :
  floor_plan_legend lx ly items msp =
  msp ++ pairs_from (fp_swatch lx ly) (fp_label lx ly) 0 items.
Proof.
  unfold floor_plan_legend, enumerate. apply for_each_pairs.
  intros i [c t] m. run_steps. reflexivity.
Qed.

Lemma sheet_legend_emits lx ly items msp :
  sheet_legend lx ly items msp =
  msp ++ pairs_from (sheet_swatch lx ly) (sheet_label lx ly) 0 items.
Proof.
  unfold sheet_legend, enumerate. apply for_each_pairs.
  intros i [c t] m. run_steps. reflexivity.
Qed.

Lemma fp_row_step ly i :
  fp_row ly (S i) = fp_row ly i - 12 /\ fp_row ly (S i) + 6 < fp_row ly i.
Proof. unfold fp_row. rewrite S_INR. split; lra. Qed.

Lemma sheet_row_step ly i :
  sheet_row ly (S i) = sheet_row ly i - 10
  /\ sheet_row ly (S i) + 5 < sheet_row ly i.
Proof. unfold sheet_row. rewrite S_INR. split; lra. Qed.

(** *** The symbol functions *)

Lemma add_room_box_entities x y w h label ref col msp :
  add_room_box x y w h label ref col msp =
  msp ++
  [ LWPolyline [ (x, y); (x + w, y); (x + w, y + h); (x, y + h); (x, y) ]
               (stroke_attribs col (Some 35%Z) None);
    Text label (text_attribs 6 col (Some "TITLE"))
         (x + w / 2, y + h - 10) MIDDLE_CENTER;
    Text ref (text_attribs 4 RED None) (x + w - 5, y + h - 5) MIDDLE_RIGHT ].
Proof. unfold add_room_box. run_steps. reflexivity. Qed.

Lemma symbols_append_only :
  (forall x y w h label ref col,
      appends_only (add_room_box x y w h label ref col))
  /\ (forall x y w h label tag col dashed,
      appends_only (add_equipment x y w h label tag col dashed))
  /\ (forall x y length label col horizontal,
      appends_only (add_bus_bar x y length label col horizontal))
  /\ (forall cx cy radius label tag col,
      appends_only (add_generator_symbol cx cy radius label tag col))
  /\ (forall cx cy radius label col,
      appends_only (add_transformer_symbol cx cy radius label col))
  /\ (forall x y label col, appends_only (add_cb_symbol x y label col)).
Proof.
  repeat split; intros; intro msp.
  - unfold add_room_box. run_steps. reflexivity.
  - unfold add_equipment. run_steps. reflexivity.
  - unfold add_bus_bar. destruct horizontal; run_steps; reflexivity.
  - unfold add_generator_symbol. run_steps. reflexivity.
  - unfold add_transformer_symbol. run_steps. reflexivity.
  - unfold add_cb_symbol. run_steps. reflexivity.
Qed.

(** The horizontal bus bar: one polyline of line weight 70, heavier than
    every wiring line, and the label centred along it, 8 below. *)
Lemma bus_bar_horizontal x y length label col msp :
  add_bus_bar x y length label col true msp =
    msp ++
    [ LWPolyline [ (x, y); (x + length, y) ]
                 (stroke_attribs col (Some 70%Z) None);
      Text label (text_attribs 4 col None) (x + length / 2, y - 8)
           MIDDLE_CENTER ]
  /\ Forall (fun w => (w < 70)%Z) wiring_lineweights.
Proof.
  split.
  - unfold add_bus_bar. run_steps. reflexivity.
  - unfold wiring_lineweights. repeat constructor.
Qed.

(** C7 (where the code departs from it).  Called with [horizontal=False],
    [add_bus_bar] adds the thick polyline alone: the label it was given is
    not drawn. *)
Theorem bus_bar_vertical_drops_label :
  add_bus_bar 0 0 100 "BUS A" WHITE false [] =
    [ LWPolyline [ (0, 0); (0, 0 + 100) ]
                 (stroke_attribs WHITE (Some 70%Z) None) ].
Proof. reflexivity. Qed.

(** *** Title block *)

Lemma dxf_title_block_cells dwg_no title1 title2 standard msp :
  let msp' := add_title_block dwg_no title1 title2 standard 600 10 msp in
  In (dwg_no_cell dwg_no) msp' /\ In date_cell msp'.
Proof.
  cbv zeta. unfold add_title_block, dwg_no_cell, date_cell. run_steps.
  split; apply in_or_app; right; cbn [In];
    repeat (first [left; reflexivity | right]).
Qed.

Lemma for_each_extends {A : Type} (xs : list A) (body : A -> step) :
  (forall x msp, exists l, body x msp = msp ++ l) ->
  forall msp, exists l, for_each xs body msp = msp ++ l.
Proof.
  intro Hb. induction xs as [|x rest IH]; intro msp.
  - exists []. cbn. now rewrite app_nil_r.
  - cbn [for_each]. unfold seq_step. destruct (Hb x msp) as [l1 ->].
    destruct (IH (msp ++ l1)) as [l2 ->]. exists (l1 ++ l2).
    now rewrite app_assoc.
Qed.

End DxfFacts.

(** ** Legends of both renderers *)

Module Legends.
Import PdfFacts DxfFacts.

Lemma legend_item_entry x y col label shape c :
  Pdf.known_shape shape = true ->
  exists swatch text,
    Pdf.page (Pdf.run (Pdf.draw_legend_item x y col label shape) c)
      = Pdf.page c ++ [ swatch; text ]
    /\ Pdf.legend_entry x y swatch text.
Proof.
  pose proof mm_pos as Hmm. unfold Pdf.known_shape.
  by_shape shape; intro Hk; try discriminate Hk; run_program;
    do 2 eexists; (split; [reflexivity|]);
    unfold Pdf.legend_entry;
    (split; [reflexivity|]);
    (split; [|eexists; reflexivity]);
    unfold Pdf.mark_points; cbn [Pdf.m_geom];
    repeat (apply Forall_cons; [unfold Pdf.in_box; cbn [fst snd]; lra|]);
    apply Forall_nil.
Qed.

Lemma legend_item_swatches :
  (forall x y col label c,
        let d := Pdf.dash (Pdf.gs c) in
        let t := Pdf.ctm (Pdf.gs c) in
        let drawn shape swatch :=
          Pdf.page (Pdf.run (Pdf.draw_legend_item x y col label shape) c) =
          Pdf.page c ++
          [ swatch;
            Pdf.mkMark (Pdf.GText Pdf.AnchorLeft (x + 6 * Pdf.mm)
                                  (y + 0.5 * Pdf.mm) label "Helvetica" 5.5)
                       None (Some Pdf.black) t ] in
        drawn "rect"
          (Pdf.mkMark (Pdf.GRect x y (4 * Pdf.mm) (3 * Pdf.mm))
                      (Some (Pdf.mkStroke Pdf.black 0.4 d)) (Some col) t)
        /\ drawn "line"
             (Pdf.mkMark (Pdf.GLine x (y + 1.5 * Pdf.mm) (x + 4 * Pdf.mm)
                                    (y + 1.5 * Pdf.mm))
                         (Some (Pdf.mkStroke col 1.5 d)) None t)
        /\ drawn "dash"
             (Pdf.mkMark (Pdf.GLine x (y + 1.5 * Pdf.mm) (x + 4 * Pdf.mm)
                                    (y + 1.5 * Pdf.mm))
                         (Some (Pdf.mkStroke col 1 (Pdf.Dashed 2 1.5))) None t)
        /\ drawn "circle"
             (Pdf.mkMark (Pdf.GCircle (x + 2 * Pdf.mm) (y + 1.5 * Pdf.mm)
                                      (1.5 * Pdf.mm))
                         (Some (Pdf.mkStroke Pdf.black 0.4 d)) (Some col) t)).
Proof.
  intros x y col label c. cbv zeta.
  split; [|split; [|split]];
    unfold Pdf.draw_legend_item; cbv [String.eqb Ascii.eqb Bool.eqb];
    run_program; reflexivity.
Qed.

Lemma legend_entry_row x y y' swatch text :
  y = y' -> Pdf.legend_entry x y swatch text -> Pdf.legend_entry x y' swatch text.
Proof. intros <- H. exact H. Qed.

Ltac entries_of_block :=
  rewrite !run_app;
  repeat match goal with
         | |- context [Pdf.run (Pdf.draw_legend_item ?x ?y ?col ?l ?s) ?c] =>
             let sw := fresh "sw" in
             let tx := fresh "tx" in
             let HP := fresh "HP" in
             let HE := fresh "HE" in
             destruct (legend_item_entry x y col l s c eq_refl)
               as (sw & tx & HP & HE);
             rewrite HP; clear HP
         end;
  cbn [Pdf.new_canvas Pdf.page]; repeat rewrite <- app_assoc;
  cbn [app Pdf.legend_block];
  repeat (split;
          [match goal with
           | H : Pdf.legend_entry _ _ ?s ?t |- Pdf.legend_entry _ _ ?s ?t =>
               refine (legend_entry_row _ _ _ _ _ _ H); lra
           end|]);
  exact I.

Lemma pdf_legend_blocks (lx ly : R) :
  Pdf.legend_block (lx + 2 * Pdf.mm) (ly + 23 * Pdf.mm) (5 * Pdf.mm) 5
    (Pdf.page (Pdf.run (Pdf.floor_plan_legend lx ly) Pdf.new_canvas))
  /\ Pdf.legend_block (lx + 2 * Pdf.mm) (ly + 21 * Pdf.mm) (5 * Pdf.mm) 5
       (Pdf.page (Pdf.run (Pdf.electrical_legend lx ly) Pdf.new_canvas))
  /\ Pdf.legend_block (lx + 2 * Pdf.mm) (ly + 19 * Pdf.mm) (5 * Pdf.mm) 5
       (Pdf.page (Pdf.run (Pdf.network_legend lx ly) Pdf.new_canvas))
  /\ Pdf.legend_block (lx + 2 * Pdf.mm) (ly + 19 * Pdf.mm) (5 * Pdf.mm) 5
       (Pdf.page (Pdf.run (Pdf.cooling_legend lx ly) Pdf.new_canvas))
  /\ Pdf.legend_block (lx + 2 * Pdf.mm) (ly + 19 * Pdf.mm) (5 * Pdf.mm) 5
       (Pdf.page (Pdf.run (Pdf.fire_legend lx ly) Pdf.new_canvas)).
Proof.
  split; [|split; [|split; [|split]]].
  - unfold Pdf.floor_plan_legend. entries_of_block.
  - unfold Pdf.electrical_legend. entries_of_block.
  - unfold Pdf.network_legend. entries_of_block.
  - unfold Pdf.cooling_legend. entries_of_block.
  - unfold Pdf.fire_legend. entries_of_block.
Qed.

(** C6.  DXF: for every legend origin and every list of N items, each legend
    loop (that of the floor plan, and the one shared by the network, cooling
    and fire sheets) appends exactly 2 * N entities: for item i a swatch at
    row i followed by its label.  Consecutive rows are a constant 12 (resp.
    10) apart, strictly decreasing, and that spacing exceeds the swatch
    height 6 (resp. 5), so the swatch of entry i + 1 ends below the swatch of
    entry i.  With no items nothing is appended.
    PDF: for each of the four shapes it knows, [draw_legend_item] adds on any
    canvas exactly one swatch and one label: the swatch a shape within the
    box 4 mm wide and 3 mm high at the point given (a rectangle filling the
    box, a solid or dashed line across its middle, or a circle of radius
    1.5 mm about its centre), the label 6 mm to the right.  Each of the five legend blocks, drawn on a fresh canvas, is five
    such entries and nothing else, on rows a constant 5 mm apart going down,
    which exceeds the 3 mm a swatch is high. *)
Theorem legend_entries (lx ly : R) (items : list (Z * string))
  (msp : Dxf.modelspace) :
  (exists fp sh : list Dxf.entity,
     Dxf.floor_plan_legend lx ly items msp = msp ++ fp
     /\ Dxf.sheet_legend lx ly items msp = msp ++ sh
     /\ List.length fp = (2 * List.length items)%nat
     /\ List.length sh = (2 * List.length items)%nat
     /\ (items = [] -> fp = [] /\ sh = [])
     /\ (forall i e, nth_error items i = Some e ->
           nth_error fp (2 * i) = Some (Dxf.fp_swatch lx ly i e)
           /\ nth_error fp (2 * i + 1) = Some (Dxf.fp_label lx ly i e)
           /\ nth_error sh (2 * i) = Some (Dxf.sheet_swatch lx ly i e)
           /\ nth_error sh (2 * i + 1) = Some (Dxf.sheet_label lx ly i e))
     /\ (forall i, Dxf.fp_row ly (S i) = Dxf.fp_row ly i - 12
                   /\ Dxf.fp_row ly (S i) + 6 < Dxf.fp_row ly i
                   /\ Dxf.sheet_row ly (S i) = Dxf.sheet_row ly i - 10
                   /\ Dxf.sheet_row ly (S i) + 5 < Dxf.sheet_row ly i))
  /\ (forall x y col label shape c,
        Pdf.known_shape shape = true ->
        exists swatch text,
          Pdf.page (Pdf.run (Pdf.draw_legend_item x y col label shape) c)
            = Pdf.page c ++ [ swatch; text ]
          /\ Pdf.legend_entry x y swatch text)
  /\ (forall x y col label c,
        let d := Pdf.dash (Pdf.gs c) in
        let t := Pdf.ctm (Pdf.gs c) in
        let drawn shape swatch :=
          Pdf.page (Pdf.run (Pdf.draw_legend_item x y col label shape) c) =
          Pdf.page c ++
          [ swatch;
            Pdf.mkMark (Pdf.GText Pdf.AnchorLeft (x + 6 * Pdf.mm)
                                  (y + 0.5 * Pdf.mm) label "Helvetica" 5.5)
                       None (Some Pdf.black) t ] in
        drawn "rect"
          (Pdf.mkMark (Pdf.GRect x y (4 * Pdf.mm) (3 * Pdf.mm))
                      (Some (Pdf.mkStroke Pdf.black 0.4 d)) (Some col) t)
        /\ drawn "line"
             (Pdf.mkMark (Pdf.GLine x (y + 1.5 * Pdf.mm) (x + 4 * Pdf.mm)
                                    (y + 1.5 * Pdf.mm))
                         (Some (Pdf.mkStroke col 1.5 d)) None t)
        /\ drawn "dash"
             (Pdf.mkMark (Pdf.GLine x (y + 1.5 * Pdf.mm) (x + 4 * Pdf.mm)
                                    (y + 1.5 * Pdf.mm))
                         (Some (Pdf.mkStroke col 1 (Pdf.Dashed 2 1.5))) None t)
        /\ drawn "circle"
             (Pdf.mkMark (Pdf.GCircle (x + 2 * Pdf.mm) (y + 1.5 * Pdf.mm)
                                      (1.5 * Pdf.mm))
                         (Some (Pdf.mkStroke Pdf.black 0.4 d)) (Some col) t))
  /\ Pdf.legend_block (lx + 2 * Pdf.mm) (ly + 23 * Pdf.mm) (5 * Pdf.mm) 5
       (Pdf.page (Pdf.run (Pdf.floor_plan_legend lx ly) Pdf.new_canvas))
  /\ Pdf.legend_block (lx + 2 * Pdf.mm) (ly + 21 * Pdf.mm) (5 * Pdf.mm) 5
       (Pdf.page (Pdf.run (Pdf.electrical_legend lx ly) Pdf.new_canvas))
  /\ Pdf.legend_block (lx + 2 * Pdf.mm) (ly + 19 * Pdf.mm) (5 * Pdf.mm) 5
       (Pdf.page (Pdf.run (Pdf.network_legend lx ly) Pdf.new_canvas))
  /\ Pdf.legend_block (lx + 2 * Pdf.mm) (ly + 19 * Pdf.mm) (5 * Pdf.mm) 5
       (Pdf.page (Pdf.run (Pdf.cooling_legend lx ly) Pdf.new_canvas))
  /\ Pdf.legend_block (lx + 2 * Pdf.mm) (ly + 19 * Pdf.mm) (5 * Pdf.mm) 5
       (Pdf.page (Pdf.run (Pdf.fire_legend lx ly) Pdf.new_canvas))
  /\ 3 * Pdf.mm < 5 * Pdf.mm.
Proof.
  split.
  { exists (Dxf.pairs_from (Dxf.fp_swatch lx ly) (Dxf.fp_label lx ly) 0 items),
           (Dxf.pairs_from (Dxf.sheet_swatch lx ly) (Dxf.sheet_label lx ly)
                           0 items).
    split; [apply floor_plan_legend_emits|].
    split; [apply sheet_legend_emits|].
    split; [apply pairs_from_length|].
    split; [apply pairs_from_length|].
    split; [intros ->; split; reflexivity|].
    split.
    - intros i e H.
      destruct (pairs_from_nth _ (Dxf.fp_swatch lx ly) (Dxf.fp_label lx ly)
                  0 i items e H) as [H1 H2].
      destruct (pairs_from_nth _ (Dxf.sheet_swatch lx ly)
                  (Dxf.sheet_label lx ly) 0 i items e H) as [H3 H4].
      repeat split; assumption.
    - intro i. destruct (fp_row_step ly i) as [H1 H2].
      destruct (sheet_row_step ly i) as [H3 H4]. repeat split; assumption. }
  split; [intros; now apply legend_item_entry|].
  split; [exact legend_item_swatches|].
  destruct (pdf_legend_blocks lx ly) as (H1 & H2 & H3 & H4 & H5).
  repeat (split; [assumption|]).
  pose proof mm_pos. lra.
Qed.

Lemma legend_entries_witness :
  (exists fp sh : list Dxf.entity,
     Dxf.floor_plan_legend 680 810
       [ (Dxf.CYAN, "Data Hall"); (Dxf.RED, "Fire Control") ] [] = [] ++ fp
     /\ Dxf.sheet_legend 680 810
          [ (Dxf.CYAN, "Data Hall"); (Dxf.RED, "Fire Control") ] [] = [] ++ sh
     /\ nth_error fp 2
        = Some (Dxf.fp_swatch 680 810 1 (Dxf.RED, "Fire Control"))
     /\ nth_error sh 3
        = Some (Dxf.sheet_label 680 810 1 (Dxf.RED, "Fire Control")))
  /\ exists swatch text,
       Pdf.page (Pdf.run (Pdf.draw_legend_item 0 0 Pdf.C_COLD "Cold" "dash")
                         Pdf.new_canvas)
         = Pdf.page Pdf.new_canvas ++ [ swatch; text ]
       /\ Pdf.legend_entry 0 0 swatch text.
Proof.
  destruct (legend_entries 680 810
              [ (Dxf.CYAN, "Data Hall"); (Dxf.RED, "Fire Control") ] [])
    as ((fp & sh & Hfp & Hsh & _ & _ & _ & Hnth & _) & Hitem & _ & _).
  split.
  - exists fp, sh.
    destruct (Hnth 1%nat (Dxf.RED, "Fire Control") eq_refl) as (H0 & _ & _ & H3).
    repeat split; assumption.
  - apply (Hitem 0 0 Pdf.C_COLD "Cold" "dash" Pdf.new_canvas). reflexivity.
Defined.

End Legends.

(** ** Both renderers *)

Module Toolkit.

Import PdfFacts DxfFacts.

(** C2 (as the code has it).  The room helpers do not validate their
    geometry: for every width and height, positive or not, [draw_room] and
    [add_room_box] run to completion and emit their rectangle with exactly
    the given position and size, followed by their label text(s). *)
Theorem room_helpers_emit_given_geometry
  (x y w h : R) (label : string) (ref_id : option string)
  (fill text_color : Pdf.color) (c : Pdf.canvas)
  (ref : string) (col : Z) (msp : Dxf.modelspace) :
  Pdf.page (Pdf.run (Pdf.draw_room x y w h label ref_id fill text_color) c) =
    Pdf.page c ++
    [ Pdf.mkMark (Pdf.GRect x y w h)
        (Some (Pdf.mkStroke Pdf.C_WALL 1.2 (Pdf.dash (Pdf.gs c))))
        (Some fill) (Pdf.ctm (Pdf.gs c));
      Pdf.mkMark
        (Pdf.GText Pdf.AnchorCentre (x + w / 2) (y + h / 2 + 2) label
                   "Helvetica-Bold" 7)
        None (Some text_color) (Pdf.ctm (Pdf.gs c)) ]
    ++ (if Pdf.truthy ref_id
        then [ Pdf.mkMark
                 (Pdf.GText Pdf.AnchorCentre (x + w / 2) (y + h / 2 - 6)
                            (Pdf.text_of ref_id) "Helvetica" 5.5)
                 None (Some (Pdf.HexColor "#666666")) (Pdf.ctm (Pdf.gs c)) ]
        else [])
  /\ Dxf.add_room_box x y w h label ref col msp =
       msp ++
       [ Dxf.LWPolyline
           [ (x, y); (x + w, y); (x + w, y + h); (x, y + h); (x, y) ]
           (Dxf.stroke_attribs col (Some 35%Z) None);
         Dxf.Text label (Dxf.text_attribs 6 col (Some "TITLE"))
                  (x + w / 2, y + h - 10) Dxf.MIDDLE_CENTER;
         Dxf.Text ref (Dxf.text_attribs 4 Dxf.RED None)
                  (x + w - 5, y + h - 5) Dxf.MIDDLE_RIGHT ].
Proof.
  split; [apply draw_room_marks | apply add_room_box_entities].
Qed.

(** C2 fails as stated: with width -1 and height 0 both room helpers emit
    their shapes. *)
Lemma room_helpers_emit_degenerate_rectangle :
  (-1 <= 0 /\ 0 <= 0)
  /\ Pdf.page (Pdf.run (Pdf.draw_room 0 0 (-1) 0 "ROOM" None
                          Pdf.C_WALL_FILL Pdf.C_WALL) Pdf.new_canvas) =
       [ Pdf.mkMark (Pdf.GRect 0 0 (-1) 0)
           (Some (Pdf.mkStroke Pdf.C_WALL 1.2 Pdf.Solid))
           (Some Pdf.C_WALL_FILL) [];
         Pdf.mkMark
           (Pdf.GText Pdf.AnchorCentre (0 + -1 / 2) (0 + 0 / 2 + 2) "ROOM"
                      "Helvetica-Bold" 7)
           None (Some Pdf.C_WALL) [] ]
  /\ Dxf.add_room_box 0 0 (-1) 0 "ROOM" "R-00" Dxf.WHITE [] =
       [ Dxf.LWPolyline
           [ (0, 0); (0 + -1, 0); (0 + -1, 0 + 0); (0, 0 + 0); (0, 0) ]
           (Dxf.stroke_attribs Dxf.WHITE (Some 35%Z) None);
         Dxf.Text "ROOM" (Dxf.text_attribs 6 Dxf.WHITE (Some "TITLE"))
                  (0 + -1 / 2, 0 + 0 - 10) Dxf.MIDDLE_CENTER;
         Dxf.Text "R-00" (Dxf.text_attribs 4 Dxf.RED None)
                  (0 + -1 - 5, 0 + 0 - 5) Dxf.MIDDLE_RIGHT ].
Proof.
  split; [split; lra|]. split; reflexivity.
Qed.

(** C4 (as the code has it).  Every DXF symbol function only appends: to any
    model space it adds the entities it adds to the empty one, which its
    parameters fix.  The PDF helpers [draw_rack], [draw_room] and
    [draw_legend_item] issue canvas calls fixed by their parameters and only
    add marks to the page, the marks taking the dash pattern and transform
    in force at the call; they also overwrite the graphics state:
    [draw_rack] leaves stroke colour, fill colour, line width and font set
    to its own, [draw_legend_item] leaves fill colour and font set to its
    own. *)
Theorem symbol_functions_effect :
  ((forall x y w h label ref col,
       Dxf.appends_only (Dxf.add_room_box x y w h label ref col))
   /\ (forall x y w h label tag col dashed,
       Dxf.appends_only (Dxf.add_equipment x y w h label tag col dashed))
   /\ (forall x y length label col horizontal,
       Dxf.appends_only (Dxf.add_bus_bar x y length label col horizontal))
   /\ (forall cx cy radius label tag col,
       Dxf.appends_only (Dxf.add_generator_symbol cx cy radius label tag col))
   /\ (forall cx cy radius label col,
       Dxf.appends_only (Dxf.add_transformer_symbol cx cy radius label col))
   /\ (forall x y label col,
       Dxf.appends_only (Dxf.add_cb_symbol x y label col)))
  /\ (forall x y w h label fill,
       Pdf.paints_by_parameters (Pdf.draw_rack x y w h label fill))
  /\ (forall x y w h label ref_id fill text_color,
       Pdf.paints_by_parameters
         (Pdf.draw_room x y w h label ref_id fill text_color))
  /\ (forall x y col label shape,
       Pdf.paints_by_parameters (Pdf.draw_legend_item x y col label shape))
  /\ (forall x y w h label fill c,
       Pdf.gs (Pdf.run (Pdf.draw_rack x y w h label fill) c) =
       Pdf.mkGstate Pdf.C_RACK Pdf.white 0.8 (Pdf.dash (Pdf.gs c))
                    "Helvetica-Bold" 4.5 (Pdf.ctm (Pdf.gs c)))
  /\ (forall x y col label shape c,
       let g := Pdf.gs (Pdf.run (Pdf.draw_legend_item x y col label shape) c) in
       Pdf.fillColor g = Pdf.black
       /\ Pdf.fontName g = "Helvetica" /\ Pdf.fontSize g = 5.5).
Proof.
  split; [exact symbols_append_only|].
  split; [exact rack_paints_by_parameters|].
  split; [exact room_paints_by_parameters|].
  split; [exact legend_item_paints_by_parameters|].
  split; [exact rack_sets_state|exact legend_item_sets_state].
Qed.

(** C4 fails as stated: a [draw_rack] call leaves the canvas graphics state
    changed, and the same call started under a dash pattern paints different
    marks. *)
Lemma rack_call_changes_canvas_state :
  Pdf.gs (Pdf.run (Pdf.draw_rack 0 0 10 10 "A01" Pdf.C_RACK_FILL)
                  Pdf.new_canvas)
    <> Pdf.gs Pdf.new_canvas
  /\ Pdf.page (Pdf.run (Pdf.draw_rack 0 0 10 10 "A01" Pdf.C_RACK_FILL)
                 (Pdf.run [Pdf.SetDash (Pdf.Dashed 3 2)] Pdf.new_canvas))
    <> Pdf.page (Pdf.run (Pdf.draw_rack 0 0 10 10 "A01" Pdf.C_RACK_FILL)
                   Pdf.new_canvas).
Proof.
  split.
  - unfold Pdf.draw_rack, Pdf.new_canvas, Pdf.initial_gstate. run_program.
    intro H. discriminate H.
  - unfold Pdf.draw_rack, Pdf.new_canvas, Pdf.initial_gstate. run_program.
    intro H. discriminate H.
Qed.

(** C5 (as the code has it).  Both border helpers emit two nested rectangles
    at fixed insets: [draw_border] at 10 mm (line width 0.5) and 12 mm (line
    width 1.5) from the page edge, so there the inner rectangle is the
    heavier one; [add_border] on the sheet edge (line weight 70) and 5 units
    inside it (line weight 18), so there the outer rectangle is the heavier
    one. *)
Theorem border_weights
  (width height : R) (c : Pdf.canvas) (msp : Dxf.modelspace) :
  Pdf.page (Pdf.run Pdf.draw_border c) =
    Pdf.page c ++
    [ Pdf.mkMark
        (Pdf.GRect Pdf.MARGIN Pdf.MARGIN (Pdf.PAGE_W - 2 * Pdf.MARGIN)
                   (Pdf.PAGE_H - 2 * Pdf.MARGIN))
        (Some (Pdf.mkStroke Pdf.C_BORDER 0.5 (Pdf.dash (Pdf.gs c))))
        None (Pdf.ctm (Pdf.gs c));
      Pdf.mkMark
        (Pdf.GRect Pdf.BORDER Pdf.BORDER (Pdf.PAGE_W - 2 * Pdf.BORDER)
                   (Pdf.PAGE_H - 2 * Pdf.BORDER))
        (Some (Pdf.mkStroke Pdf.C_BORDER 1.5 (Pdf.dash (Pdf.gs c))))
        None (Pdf.ctm (Pdf.gs c)) ]
  /\ (Pdf.MARGIN = 10 * Pdf.mm /\ Pdf.BORDER = 12 * Pdf.mm
      /\ 0 < Pdf.MARGIN < Pdf.BORDER
      /\ Pdf.BORDER + (Pdf.PAGE_W - 2 * Pdf.BORDER)
         < Pdf.MARGIN + (Pdf.PAGE_W - 2 * Pdf.MARGIN) < Pdf.PAGE_W
      /\ Pdf.BORDER + (Pdf.PAGE_H - 2 * Pdf.BORDER)
         < Pdf.MARGIN + (Pdf.PAGE_H - 2 * Pdf.MARGIN) < Pdf.PAGE_H)
  /\ 0.5 < 1.5
  /\ Dxf.add_border width height msp =
       msp ++
       [ Dxf.LWPolyline
           [ (0, 0); (width, 0); (width, height); (0, height); (0, 0) ]
           (Dxf.stroke_attribs Dxf.WHITE (Some 70%Z) None);
         Dxf.LWPolyline
           [ (5, 5); (width - 5, 5); (width - 5, height - 5);
             (5, height - 5); (5, 5) ]
           (Dxf.stroke_attribs Dxf.WHITE (Some 18%Z) None) ]
  /\ (0 < 5 /\ width - 5 < width /\ height - 5 < height)
  /\ (18 < 70)%Z.
Proof.
  pose proof mm_pos as Hmm.
  split; [|split; [|split; [|split; [|split]]]].
  - unfold Pdf.draw_border. run_program. reflexivity.
  - unfold Pdf.BORDER, Pdf.MARGIN, Pdf.PAGE_W, Pdf.PAGE_H. repeat split; lra.
  - lra.
  - unfold Dxf.add_border. run_steps. reflexivity.
  - repeat split; lra.
  - lia.
Qed.

(** C5 fails as stated: in the PDF border the outer rectangle has the
    lighter line. *)
Lemma pdf_border_outer_is_lighter :
  Pdf.page (Pdf.run Pdf.draw_border Pdf.new_canvas) =
    [ Pdf.mkMark
        (Pdf.GRect Pdf.MARGIN Pdf.MARGIN (Pdf.PAGE_W - 2 * Pdf.MARGIN)
                   (Pdf.PAGE_H - 2 * Pdf.MARGIN))
        (Some (Pdf.mkStroke Pdf.C_BORDER 0.5 Pdf.Solid)) None [];
      Pdf.mkMark
        (Pdf.GRect Pdf.BORDER Pdf.BORDER (Pdf.PAGE_W - 2 * Pdf.BORDER)
                   (Pdf.PAGE_H - 2 * Pdf.BORDER))
        (Some (Pdf.mkStroke Pdf.C_BORDER 1.5 Pdf.Solid)) None [] ]
  /\ Pdf.MARGIN < Pdf.BORDER
  /\ 0.5 < 1.5.
Proof.
  split; [reflexivity|].
  unfold Pdf.BORDER, Pdf.MARGIN, Pdf.mm. split; lra.
Qed.

End Toolkit.

(** ** The batch drivers *)

Module Batch.

Import PdfFacts DxfFacts.

Lemma in_after (f g : Dxf.step) (msp : Dxf.modelspace) (e : Dxf.entity) :
  Dxf.appends_only g -> In e (f msp) -> In e (Dxf.seq_step f g msp).
Proof.
  intros Hg H. unfold Dxf.seq_step. rewrite Hg. apply in_or_app. now left.
Qed.

Lemma add_entities_appends es : Dxf.appends_only (Dxf.add_entities es).
Proof. intro msp. reflexivity. Qed.

Lemma add_text_appends s a p al : Dxf.appends_only (Dxf.add_text s a p al).
Proof. intro msp. reflexivity. Qed.

Lemma add_line_appends p q a : Dxf.appends_only (Dxf.add_line p q a).
Proof. intro msp. reflexivity. Qed.

Lemma floor_plan_legend_appends lx ly items :
  Dxf.appends_only (Dxf.floor_plan_legend lx ly items).
Proof.
  intro msp. rewrite (floor_plan_legend_emits lx ly items msp).
  rewrite (floor_plan_legend_emits lx ly items []). reflexivity.
Qed.

Lemma sheet_legend_appends lx ly items :
  Dxf.appends_only (Dxf.sheet_legend lx ly items).
Proof.
  intro msp. rewrite (sheet_legend_emits lx ly items msp).
  rewrite (sheet_legend_emits lx ly items []). reflexivity.
Qed.

Lemma for_each_appends {A : Type} (xs : list A) (body : A -> Dxf.step) :
  (forall x, Dxf.appends_only (body x)) ->
  Dxf.appends_only (Dxf.for_each xs body).
Proof.
  intro Hb. induction xs as [|x rest IH]; intro msp.
  - cbn. now rewrite app_nil_r.
  - cbn [Dxf.for_each]. unfold Dxf.seq_step.
    rewrite (IH (body x msp)), (IH (body x [])), (Hb x msp), <- app_assoc.
    reflexivity.
Qed.

Lemma setup_doc_entities blank :
  Dxf.entities (Dxf.setup_doc blank) = Dxf.entities blank.
Proof.
  unfold Dxf.setup_doc, Dxf.create_text_style, Dxf.add_linetype.
  cbn [Dxf.styles Dxf.linetypes Dxf.entities Dxf.units].
  repeat match goal with
         | |- context [if ?b then _ else _] =>
             destruct b; cbn [Dxf.styles Dxf.linetypes Dxf.entities Dxf.units]
         end; reflexivity.
Qed.

Ltac frame_cell :=
  cbv zeta; cbn [snd Dxf.entities Dxf.draw_on];
  repeat match goal with
         | |- In _ (Dxf.seq_step _ (Dxf.add_entities _) _) =>
             apply in_after; [apply add_entities_appends|]
         | |- In _ (Dxf.seq_step _ (Dxf.add_text _ _ _ _) _) =>
             apply in_after; [apply add_text_appends|]
         | |- In _ (Dxf.seq_step _ (Dxf.add_line _ _ _) _) =>
             apply in_after; [apply add_line_appends|]
         | |- In _ (Dxf.seq_step _ (Dxf.floor_plan_legend _ _ _) _) =>
             apply in_after; [apply floor_plan_legend_appends|]
         | |- In _ (Dxf.seq_step _ (Dxf.sheet_legend _ _ _) _) =>
             apply in_after; [apply sheet_legend_appends|]
         | |- In _ (Dxf.seq_step _ (Dxf.for_each _ _) _) =>
             apply in_after;
             [apply for_each_appends; intros [i s]; apply add_text_appends|]
         end;
  match goal with
  | |- In (Dxf.dwg_no_cell _) (Dxf.seq_step _ (Dxf.add_title_block _ _ _ _ _ _) _) =>
      exact (proj1 (dxf_title_block_cells _ _ _ _ _))
  | |- In Dxf.date_cell (Dxf.seq_step _ (Dxf.add_title_block _ _ _ _ _ _) _) =>
      exact (proj2 (dxf_title_block_cells _ _ _ _ _))
  end.

Ltac frame_cells := split; frame_cell.

Lemma dxf_sheet_cells blank scripts :
  Forall2 (fun number file =>
             In (Dxf.dwg_no_cell number) (Dxf.entities (snd file))
             /\ In Dxf.date_cell (Dxf.entities (snd file)))
          sheet_numbers (Dxf.main blank scripts).
Proof.
  unfold sheet_numbers, Dxf.main.
  apply Forall2_cons.
  { unfold Dxf.generate_floor_plan. frame_cells. }
  apply Forall2_cons.
  { unfold Dxf.generate_electrical. frame_cells. }
  apply Forall2_cons.
  { unfold Dxf.generate_network. frame_cells. }
  apply Forall2_cons.
  { unfold Dxf.generate_cooling. frame_cells. }
  apply Forall2_cons.
  { unfold Dxf.generate_fire. frame_cells. }
  apply Forall2_nil.
Qed.

Lemma pdf_sheet_cells scripts script_dir :
  Forall2 (fun number file =>
             In (Pdf.dwg_no_cell number)
                (Pdf.page (Pdf.doc_canvas (snd file)))
             /\ In Pdf.date_cell (Pdf.page (Pdf.doc_canvas (snd file))))
          sheet_numbers (Pdf.main scripts script_dir).
Proof.
  unfold sheet_numbers, Pdf.main, Pdf.drawings. cbn [map].
  repeat (apply Forall2_cons; [cbn [snd Pdf.doc_canvas]; apply composer_cells|]).
  apply Forall2_nil.
Qed.

Lemma sheet_names_distinct : NoDup sheet_names.
Proof.
  unfold sheet_names.
  repeat (constructor;
          [cbn [In]; intro H;
           repeat (destruct H as [H|H]; [discriminate H|]); exact H|]).
  constructor.
Qed.

(** C3.  A batch run of either generator saves exactly five files, named
    after the five sheets with the format's extension, in that order; each
    name starts with the sheet's drawing number, and each sheet's title
    block carries a DWG NO cell whose text contains that number. *)
Theorem batch_outputs
  (scripts : Pdf.sheet_scripts) (script_dir : string)
  (blank : Dxf.document) (dscripts : Dxf.sheet_scripts) :
  let out_dir :=
    Pdf.os_path_join (Pdf.os_path_join script_dir "build") "pdf" in
  map fst (Pdf.main scripts script_dir) =
    map (fun n => Pdf.os_path_join out_dir (n ++ ".pdf")%string) sheet_names
  /\ map fst (Dxf.main blank dscripts) =
    map (fun n => ("build/dxf/" ++ n ++ ".dxf")%string) sheet_names
  /\ List.length sheet_names = 5%nat
  /\ NoDup sheet_names
  /\ Forall2 (fun number name => prefix number name = true)
             sheet_numbers sheet_names
  /\ Forall2 (fun number file =>
                In (Pdf.dwg_no_cell number)
                   (Pdf.page (Pdf.doc_canvas (snd file))))
             sheet_numbers (Pdf.main scripts script_dir)
  /\ Forall2 (fun number file =>
                In (Dxf.dwg_no_cell number) (Dxf.entities (snd file)))
             sheet_numbers (Dxf.main blank dscripts)
  /\ (forall number,
        (exists s, Pdf.mark_text (Pdf.dwg_no_cell number) = Some s
                   /\ contains s number = true)
        /\ (exists s, Dxf.entity_text (Dxf.dwg_no_cell number) = Some s
                      /\ contains s number = true)).
Proof.
  cbv zeta.
  split; [reflexivity|]. split; [reflexivity|]. split; [reflexivity|].
  split; [exact sheet_names_distinct|].
  split; [unfold sheet_numbers, sheet_names; repeat constructor|].
  split.
  { eapply Forall2_impl; [|apply pdf_sheet_cells]. intros a b [H _]. exact H. }
  split.
  { eapply Forall2_impl; [|apply dxf_sheet_cells]. intros a b [H _]. exact H. }
  intro number. split.
  - exists number. split; [reflexivity|apply contains_refl].
  - exists ("DWG NO: " ++ number)%string.
    split; [reflexivity|apply contains_append].
Qed.

Lemma save_all_paths {env doc bytes : Type} (save : env -> doc -> bytes)
  (e : env) (files : list (string * doc)) :
  map fst (save_all save e files) = map fst files.
Proof.
  unfold save_all. rewrite map_map. apply map_ext. intros [path d]. reflexivity.
Qed.

Lemma save_all_payloads {doc : Type} (save : run_data -> doc -> written doc)
  (r : run_data) (files : list (string * doc)) :
  (forall d, payload (save r d) = d) ->
  map (fun f => payload (snd f)) (save_all save r files) = map snd files.
Proof.
  intro Hs. unfold save_all. rewrite map_map. apply map_ext.
  intros [path d]. apply Hs.
Qed.

Lemma save_all_stamps {doc : Type} (save : run_data -> doc -> written doc)
  (r : run_data) (files : list (string * doc)) :
  (forall d, stamp (save r d) = r) ->
  map (fun f => stamp (snd f)) (save_all save r files) = map (fun _ => r) files.
Proof.
  intro Hs. unfold save_all. rewrite map_map. apply map_ext.
  intros [path d]. apply Hs.
Qed.

(** Files written in two runs are the same only if the runs' data are. *)
Lemma same_files_same_run {doc : Type} (save : run_data -> doc -> written doc)
  (r1 r2 : run_data) (files : list (string * doc)) :
  (forall r d, stamp (save r d) = r) ->
  files <> [] ->
  save_all save r1 files = save_all save r2 files -> r1 = r2.
Proof.
  intros Hs Hne H.
  apply (f_equal (map (fun f => stamp (snd f)))) in H.
  rewrite (save_all_stamps save r1 files (Hs r1)) in H.
  rewrite (save_all_stamps save r2 files (Hs r2)) in H.
  destruct files as [|f rest]; [now elim Hne|].
  cbn [map] in H. now injection H.
Qed.

Lemma pdf_main_length scripts script_dir :
  List.length (Pdf.main scripts script_dir) = 5%nat.
Proof. reflexivity. Qed.

Lemma dxf_main_length blank dscripts :
  List.length (Dxf.main blank dscripts) = 5%nat.
Proof. reflexivity. Qed.

Lemma five_not_empty {A : Type} (l : list A) : List.length l = 5%nat -> l <> [].
Proof. intros H ->. discriminate H. Qed.

(** C8 (as the code behaves).  In every run either batch writes five files,
    to the same paths and from the same documents: the composers read nothing
    of the run, and every sheet's date cell holds the literal date.  But each
    file also carries the data of the run that wrote it (the libraries' time
    stamps and identifiers, which the code leaves switched on), so the files
    of two runs are the same exactly when the runs' data are the same, and
    not in general. *)
Theorem batch_runs_agree_up_to_run_data
  (scripts : Pdf.sheet_scripts) (script_dir : string)
  (blank : Dxf.document) (dscripts : Dxf.sheet_scripts) (r1 r2 : run_data) :
  let pdfs r := save_all pdf_save r (Pdf.main scripts script_dir) in
  let dxfs r := save_all dxf_saveas r (Dxf.main blank dscripts) in
  (List.length (pdfs r1) = 5%nat /\ List.length (dxfs r1) = 5%nat)
  /\ (map fst (pdfs r1) = map fst (pdfs r2)
      /\ map fst (dxfs r1) = map fst (dxfs r2))
  /\ (map (fun f => payload (snd f)) (pdfs r1)
        = map snd (Pdf.main scripts script_dir)
      /\ map (fun f => payload (snd f)) (pdfs r2)
        = map snd (Pdf.main scripts script_dir)
      /\ map (fun f => payload (snd f)) (dxfs r1)
        = map snd (Dxf.main blank dscripts)
      /\ map (fun f => payload (snd f)) (dxfs r2)
        = map snd (Dxf.main blank dscripts))
  /\ (Forall (fun f => stamp (snd f) = r1) (pdfs r1)
      /\ Forall (fun f => stamp (snd f) = r1) (dxfs r1))
  /\ (Forall (fun file =>
                In Pdf.date_cell (Pdf.page (Pdf.doc_canvas (snd file))))
             (Pdf.main scripts script_dir)
      /\ Forall (fun file => In Dxf.date_cell (Dxf.entities (snd file)))
                (Dxf.main blank dscripts))
  /\ (pdfs r1 = pdfs r2 <-> r1 = r2)
  /\ (dxfs r1 = dxfs r2 <-> r1 = r2).
Proof.
  cbv zeta.
  split.
  { unfold save_all. rewrite !length_map. split; reflexivity. }
  split.
  { rewrite !save_all_paths. split; reflexivity. }
  split.
  { repeat split; apply save_all_payloads; reflexivity. }
  split.
  { split; unfold save_all; apply Forall_map, Forall_forall;
      intros [path d] _; reflexivity. }
  split.
  { split.
    - pose proof (pdf_sheet_cells scripts script_dir) as H.
      induction H as [|a b la lb [_ Hd] _ IH]; constructor; assumption.
    - pose proof (dxf_sheet_cells blank dscripts) as H.
      induction H as [|a b la lb [_ Hd] _ IH]; constructor; assumption. }
  split; split.
  - apply same_files_same_run; [reflexivity|].
    apply five_not_empty, pdf_main_length.
  - intros ->. reflexivity.
  - apply same_files_same_run; [reflexivity|].
    apply five_not_empty, dxf_main_length.
  - intros ->. reflexivity.
Qed.

(** C8 (where the code departs from it).  Two runs at different times write
    different files, in both formats. *)
Lemma batch_runs_differ :
  let scripts := Pdf.mkScripts [] [] [] [] [] in
  let dscripts := Dxf.mkScripts [] [] [] [] [] in
  let blank := Dxf.mkDocument 0 [] [] [] in
  let first_run := mkRunData 0 0 in
  let second_run := mkRunData 1 1 in
  save_all pdf_save first_run (Pdf.main scripts "")
    <> save_all pdf_save second_run (Pdf.main scripts "")
  /\ save_all dxf_saveas first_run (Dxf.main blank dscripts)
    <> save_all dxf_saveas second_run (Dxf.main blank dscripts).
Proof.
  cbv zeta. split; intro H.
  - apply same_files_same_run in H; [discriminate H | reflexivity |].
    apply five_not_empty, pdf_main_length.
  - apply same_files_same_run in H; [discriminate H | reflexivity |].
    apply five_not_empty, dxf_main_length.
Qed.

End Batch.

(** * Further properties of the DXF renderer *)

Module DxfSetup.
Import Dxf.

Lemma has_entry_app {A : Type} name (t1 t2 : list (string * A)) :
  has_entry name (t1 ++ t2) = (has_entry name t1 || has_entry name t2)%bool.
Proof. unfold has_entry. apply existsb_app. Qed.

Lemma has_entry_in {A : Type} name (t : list (string * A)) :
  has_entry name t = true <-> In name (names A t).
Proof.
  unfold has_entry, names. rewrite existsb_exists, in_map_iff. split.
  - intros [e [He Hn]]. exists e. apply String.eqb_eq in Hn. now split.
  - intros [e [Hn He]]. exists e. split; [exact He|]. now apply String.eqb_eq.
Qed.

Lemma text_style_created name font doc :
  has_entry name (styles (create_text_style name font doc)) = true.
Proof.
  unfold create_text_style. destruct (has_entry name (styles doc)) eqn:E.
  - exact E.
  - cbn [styles]. rewrite has_entry_app. cbn. rewrite String.eqb_refl.
    apply orb_true_r.
Qed.

Lemma text_style_kept name font n doc :
  has_entry n (styles doc) = true ->
  has_entry n (styles (create_text_style name font doc)) = true.
Proof.
  intro H. unfold create_text_style. destruct (has_entry name (styles doc)).
  - exact H.
  - cbn [styles]. rewrite has_entry_app, H. reflexivity.
Qed.

Lemma linetype_added name pat doc :
  has_entry name (linetypes (add_linetype name pat doc)) = true.
Proof.
  unfold add_linetype. destruct (has_entry name (linetypes doc)) eqn:E.
  - exact E.
  - cbn [linetypes]. rewrite has_entry_app. cbn. rewrite String.eqb_refl.
    apply orb_true_r.
Qed.

Lemma linetype_kept name pat n doc :
  has_entry n (linetypes doc) = true ->
  has_entry n (linetypes (add_linetype name pat doc)) = true.
Proof.
  intro H. unfold add_linetype. destruct (has_entry name (linetypes doc)).
  - exact H.
  - cbn [linetypes]. rewrite has_entry_app, H. reflexivity.
Qed.

Lemma text_style_other name font doc :
  units (create_text_style name font doc) = units doc
  /\ linetypes (create_text_style name font doc) = linetypes doc
  /\ entities (create_text_style name font doc) = entities doc.
Proof. unfold create_text_style. destruct (has_entry _ _); auto. Qed.

Lemma linetype_other name pat doc :
  units (add_linetype name pat doc) = units doc
  /\ styles (add_linetype name pat doc) = styles doc
  /\ entities (add_linetype name pat doc) = entities doc.
Proof. unfold add_linetype. destruct (has_entry _ _); auto. Qed.

Lemma setup_doc_tables (blank : document) :
  units (setup_doc blank) = MM
  /\ has_entry "TITLE" (styles (setup_doc blank)) = true
  /\ has_entry "NOTES" (styles (setup_doc blank)) = true
  /\ has_entry "DASHED" (linetypes (setup_doc blank)) = true
  /\ has_entry "DASHDOT" (linetypes (setup_doc blank)) = true.
Proof.
  unfold setup_doc.
  set (d0 := mkDocument MM (styles blank) (linetypes blank) (entities blank)).
  set (d1 := create_text_style "TITLE" "Arial" d0).
  set (d2 := create_text_style "NOTES" "Arial" d1).
  set (d3 := add_linetype "DASHED" _ d2).
  destruct (text_style_other "TITLE" "Arial" d0) as [U1 _].
  destruct (text_style_other "NOTES" "Arial" d1) as [U2 _].
  destruct (linetype_other "DASHED" [10.0; 5.0; -5.0] d2) as [U3 [S3 _]].
  destruct (linetype_other "DASHDOT" [14.0; 5.0; -3.0; 0.0; -3.0] d3)
    as [U4 [S4 _]].
  fold d1 in U1. fold d2 in U2. fold d3 in U3, S3, U4, S4.
  repeat split.
  - now rewrite U4, U3, U2, U1.
  - rewrite S4, S3. apply text_style_kept, text_style_created.
  - rewrite S4, S3. apply text_style_created.
  - apply linetype_kept, linetype_added.
  - apply linetype_added.
Qed.

(** X1.  Whatever tables the new document comes with, [setup_doc] returns a
    document in millimetres in which the text styles TITLE and NOTES and the
    line types DASHED and DASHDOT are registered; every entry the new
    document had is still there and the model space is untouched. *)
Theorem setup_doc_registers (blank : document) :
  let doc := setup_doc blank in
  units doc = MM
  /\ has_entry "TITLE" (styles doc) = true
  /\ has_entry "NOTES" (styles doc) = true
  /\ has_entry "DASHED" (linetypes doc) = true
  /\ has_entry "DASHDOT" (linetypes doc) = true
  /\ (forall n, has_entry n (styles blank) = true ->
                has_entry n (styles doc) = true)
  /\ (forall n, has_entry n (linetypes blank) = true ->
                has_entry n (linetypes doc) = true)
  /\ entities doc = entities blank.
Proof.
  cbv zeta. destruct (setup_doc_tables blank) as (HU & HT & HN & HD & HDD).
  repeat (split; [assumption|]).
  unfold setup_doc.
  set (d0 := mkDocument MM (styles blank) (linetypes blank) (entities blank)).
  set (d1 := create_text_style "TITLE" "Arial" d0).
  set (d2 := create_text_style "NOTES" "Arial" d1).
  set (d3 := add_linetype "DASHED" _ d2).
  destruct (text_style_other "TITLE" "Arial" d0) as [_ [L1 E1]].
  destruct (text_style_other "NOTES" "Arial" d1) as [_ [L2 E2]].
  destruct (linetype_other "DASHED" [10.0; 5.0; -5.0] d2) as [_ [S3 E3]].
  destruct (linetype_other "DASHDOT" [14.0; 5.0; -3.0; 0.0; -3.0] d3)
    as [_ [S4 E4]].
  fold d1 in L1, E1. fold d2 in L2, E2. fold d3 in S3, E3, S4, E4.
  repeat split.
  - intros n H. rewrite S4, S3. now apply text_style_kept, text_style_kept.
  - intros n H. apply linetype_kept, linetype_kept. now rewrite L2, L1.
  - now rewrite E4, E3, E2, E1.
Qed.

Lemma text_style_present name font doc :
  has_entry name (styles doc) = true -> create_text_style name font doc = doc.
Proof. intro H. unfold create_text_style. now rewrite H. Qed.

(** X2.  [create_text_style] keeps the first registration of a name: called
    again with the same name, whatever the font, it leaves the document as
    the first call left it. *)
Theorem create_text_style_idempotent (name font1 font2 : string)
  (doc : document) :
  create_text_style name font2 (create_text_style name font1 doc) =
  create_text_style name font1 doc.
Proof. apply text_style_present, text_style_created. Qed.

Lemma not_entry_not_in {A : Type} name (t : list (string * A)) :
  has_entry name t = false -> ~ In name (names A t).
Proof.
  intros H Hin. apply has_entry_in in Hin. congruence.
Qed.

Lemma names_snoc {A : Type} (t : list (string * A)) name (v : A) :
  has_entry name t = false -> NoDup (names A t) ->
  NoDup (names A (t ++ [(name, v)])).
Proof.
  intros H Hnd. unfold names. rewrite map_app. cbn [map fst].
  apply NoDup_app; [exact Hnd | repeat constructor; intros [] |].
  intros a Ha [E|[]]. subst a. now apply (not_entry_not_in name t).
Qed.

Lemma text_style_nodup name font doc :
  NoDup (names string (styles doc)) ->
  NoDup (names string (styles (create_text_style name font doc))).
Proof.
  intro H. unfold create_text_style.
  destruct (has_entry name (styles doc)) eqn:E; [exact H|].
  cbn [styles]. now apply names_snoc.
Qed.

Lemma linetype_nodup name pat doc :
  NoDup (names (list R) (linetypes doc)) ->
  NoDup (names (list R) (linetypes (add_linetype name pat doc))).
Proof.
  intro H. unfold add_linetype.
  destruct (has_entry name (linetypes doc)) eqn:E; [exact H|].
  cbn [linetypes]. now apply names_snoc.
Qed.

(** X3.  [setup_doc] never registers a name twice: if no style name and no
    line-type name occurs twice in the new document's tables, none does
    after the setup. *)
Theorem setup_doc_no_duplicate_names (blank : document) :
  NoDup (names string (styles blank)) ->
  NoDup (names (list R) (linetypes blank)) ->
  NoDup (names string (styles (setup_doc blank)))
  /\ NoDup (names (list R) (linetypes (setup_doc blank))).
Proof.
  intros HS HL. unfold setup_doc.
  set (d0 := mkDocument MM (styles blank) (linetypes blank) (entities blank)).
  set (d1 := create_text_style "TITLE" "Arial" d0).
  set (d2 := create_text_style "NOTES" "Arial" d1).
  set (d3 := add_linetype "DASHED" _ d2).
  destruct (text_style_other "TITLE" "Arial" d0) as [_ [L1 _]].
  destruct (text_style_other "NOTES" "Arial" d1) as [_ [L2 _]].
  destruct (linetype_other "DASHED" [10.0; 5.0; -5.0] d2) as [_ [S3 _]].
  destruct (linetype_other "DASHDOT" [14.0; 5.0; -3.0; 0.0; -3.0] d3)
    as [_ [S4 _]].
  fold d1 in L1. fold d2 in L2. fold d3 in S3, S4.
  split.
  - rewrite S4, S3. now apply text_style_nodup, text_style_nodup.
  - apply linetype_nodup, linetype_nodup. now rewrite L2, L1.
Qed.

Lemma setup_doc_no_duplicate_names_witness :
  NoDup (names string (styles (setup_doc (mkDocument 0 [] [] []))))
  /\ NoDup (names (list R) (linetypes (setup_doc (mkDocument 0 [] [] [])))).
Proof.
  apply (setup_doc_no_duplicate_names (mkDocument 0 [] [] []));
    cbn; apply NoDup_nil.
Defined.

End DxfSetup.

Module DxfSymbols.
Import Dxf.

Ltac each tac := repeat (apply Forall_cons; [tac|]); apply Forall_nil.

Ltac boxed :=
  unfold in_box; cbn [fst snd]; lra.

Ltac emits f := unfold f; run_steps.

Lemma for_each_flat {A : Type} (xs : list A) (body : A -> step) :
  (forall x, appends_only (body x)) ->
  forall msp, for_each xs body msp = msp ++ flat_map (fun x => body x []) xs.
Proof.
  intro Hb. induction xs as [|x rest IH]; intro msp.
  - cbn. now rewrite app_nil_r.
  - cbn [for_each flat_map]. unfold seq_step.
    rewrite IH, (Hb x msp), <- app_assoc. reflexivity.
Qed.

Lemma in_enumerate_from {A : Type} (k i : nat) (x : A) (xs : list A) :
  In (i, x) (enumerate_from k xs) -> (k <= i < k + List.length xs)%nat.
Proof.
  revert k. induction xs as [|x0 rest IH]; intros k H; [destruct H|].
  cbn [enumerate_from In List.length] in *. destruct H as [H|H].
  - injection H as <- _. lia.
  - apply IH in H. lia.
Qed.

Lemma rack_rows_turn_appends n e : appends_only (rack_rows_turn n e).
Proof.
  destruct e as [i label]. intro msp. unfold rack_rows_turn.
  destruct ((i mod 2 =? 0) && (i <? n - 1))%nat%bool;
    [|destruct ((i mod 2 =? 1) && (i <? n - 1))%nat%bool];
    run_steps; rewrite ?app_nil_r; reflexivity.
Qed.

Lemma rack_rows_emits labels msp :
  rack_rows labels msp =
  msp ++ flat_map (fun e => rack_rows_turn (List.length labels) e [])
                  (enumerate labels).
Proof.
  unfold rack_rows. apply for_each_flat. intro e. apply rack_rows_turn_appends.
Qed.

(** *** Names in use *)

Section Registered.

Variable blank : document.

Lemma title_registered : has_entry "TITLE" (styles (setup_doc blank)) = true.
Proof. destruct (DxfSetup.setup_doc_tables blank) as (_ & H & _). exact H. Qed.

Lemma dashed_registered : has_entry "DASHED" (linetypes (setup_doc blank)) = true.
Proof.
  destruct (DxfSetup.setup_doc_tables blank) as (_ & _ & _ & H & _). exact H.
Qed.

Lemma stroke_registered c lw e :
  entity_attribs e = stroke_attribs c lw None -> registered (setup_doc blank) e.
Proof. intros E. unfold registered. rewrite E. split; intros s H; discriminate H. Qed.

Lemma dashed_stroke_registered c lw e :
  entity_attribs e = stroke_attribs c lw (Some "DASHED") -> registered (setup_doc blank) e.
Proof.
  intros E. unfold registered. rewrite E. split; intros s H.
  - discriminate H.
  - injection H as <-. apply dashed_registered.
Qed.

Lemma plain_text_registered h c e :
  entity_attribs e = text_attribs h c None -> registered (setup_doc blank) e.
Proof. intros E. unfold registered. rewrite E. split; intros s H; discriminate H. Qed.

Lemma title_text_registered h c e :
  entity_attribs e = text_attribs h c (Some "TITLE") -> registered (setup_doc blank) e.
Proof.
  intros E. unfold registered. rewrite E. split; intros s H.
  - injection H as <-. apply title_registered.
  - discriminate H.
Qed.

Ltac reg :=
  first [ eapply stroke_registered; reflexivity
        | eapply dashed_stroke_registered; reflexivity
        | eapply plain_text_registered; reflexivity
        | eapply title_text_registered; reflexivity ].

Lemma pairs_registered {A : Type} (first second : nat -> A -> entity) k xs :
  (forall i x, registered (setup_doc blank) (first i x)) ->
  (forall i x, registered (setup_doc blank) (second i x)) ->
  Forall (registered (setup_doc blank)) (pairs_from first second k xs).
Proof.
  intros H1 H2. revert k. induction xs as [|x rest IH]; intro k.
  - apply Forall_nil.
  - cbn [pairs_from]. apply Forall_cons; [apply H1|].
    apply Forall_cons; [apply H2|]. apply IH.
Qed.

(** X4.  No dangling name: every text style and every line type named by an
    entity that the sheet frame, a symbol function, a legend loop or the
    rack-row loop adds is registered in the document [setup_doc] returns,
    whatever the arguments of the call. *)
Theorem emitted_names_registered :
  let ok := Forall (registered (setup_doc blank)) in
  (forall dwg_no t1 t2 std x y, ok (add_title_block dwg_no t1 t2 std x y []))
  /\ (forall w h, ok (add_border w h []))
  /\ (forall x y w h label ref col, ok (add_room_box x y w h label ref col []))
  /\ (forall x y w h label tag col dashed,
        ok (add_equipment x y w h label tag col dashed []))
  /\ (forall x y len label col hor, ok (add_bus_bar x y len label col hor []))
  /\ (forall cx cy r label tag col,
        ok (add_generator_symbol cx cy r label tag col []))
  /\ (forall cx cy r label col, ok (add_transformer_symbol cx cy r label col []))
  /\ (forall x y label col, ok (add_cb_symbol x y label col []))
  /\ (forall lx ly items, ok (floor_plan_legend lx ly items []))
  /\ (forall lx ly items, ok (sheet_legend lx ly items []))
  /\ (forall labels, ok (rack_rows labels [])).
Proof.
  cbv zeta. repeat split; intros.
  - emits add_title_block. each reg.
  - emits add_border. each reg.
  - emits add_room_box. each reg.
  - destruct dashed; emits add_equipment; each reg.
  - destruct hor; emits add_bus_bar; each reg.
  - emits add_generator_symbol. each reg.
  - emits add_transformer_symbol. each reg.
  - emits add_cb_symbol. each reg.
  - rewrite DxfFacts.floor_plan_legend_emits. cbn [app].
    apply pairs_registered; intros; unfold fp_swatch, fp_label; reg.
  - rewrite DxfFacts.sheet_legend_emits. cbn [app].
    apply pairs_registered; intros; unfold sheet_swatch, sheet_label; reg.
  - rewrite rack_rows_emits. cbn [app]. apply Forall_flat_map, Forall_forall.
    intros [i label] _. unfold rack_rows_turn.
    destruct ((i mod 2 =? 0) && (i <? List.length labels - 1))%nat%bool;
      [|destruct ((i mod 2 =? 1) && (i <? List.length labels - 1))%nat%bool];
      run_steps; each reg.
Qed.

End Registered.

End DxfSymbols.

Module DxfGeometry.
Import Dxf DxfSymbols.

Ltac inside := apply Forall_cons; [boxed|].

Ltac all_inside := unfold within, entity_points; cbn [fst snd];
  repeat inside; apply Forall_nil.

Ltac corner := cbn [In]; repeat (first [left; reflexivity | right]).

(** X5.  A room box at least 5 wide and 10 high holds all it draws: the
    outline is a closed path through the four corners of the box given, and
    the outline's points and the anchors of the label and of the reference
    tag lie within that box. *)
Theorem room_box_within (x y w h : R) (label ref : string) (col : Z) :
  5 <= w -> 10 <= h ->
  Forall (within (x, y) (x + w, y + h)) (add_room_box x y w h label ref col [])
  /\ exists pts a rest,
       add_room_box x y w h label ref col [] = LWPolyline pts a :: rest
       /\ closed_path pts
       /\ In (x, y) pts /\ In (x + w, y) pts
       /\ In (x + w, y + h) pts /\ In (x, y + h) pts.
Proof.
  intros Hw Hh. split.
  - emits add_room_box. each all_inside.
  - emits add_room_box. do 3 eexists. split; [reflexivity|].
    split; [reflexivity|]. repeat split; corner.
Qed.

Lemma room_box_within_witness :
  Forall (within (230, 760) (230 + 120, 760 + 40))
         (add_room_box 230 760 120 40 "SECURITY VESTIBULE" "R-01" GRAY []).
Proof.
  apply (room_box_within 230 760 120 40 "SECURITY VESTIBULE" "R-01" GRAY); lra.
Defined.

(** X6.  An equipment block of non-negative width and at least 8 high, dashed
    or not, holds all it draws: its outline is a closed path through the four
    corners of the box given, and the outline's points and the anchors of
    label and tag lie within that box, the tag 6 below the label on the
    vertical centre line. *)
Theorem equipment_within (x y w h : R) (label tag : string) (col : Z)
  (dashed : bool) :
  0 <= w -> 8 <= h ->
  Forall (within (x, y) (x + w, y + h))
         (add_equipment x y w h label tag col dashed [])
  /\ exists pts a la ta py,
       add_equipment x y w h label tag col dashed [] =
         [ LWPolyline pts a;
           Text label la (x + w / 2, py) MIDDLE_CENTER;
           Text tag ta (x + w / 2, py - 6) MIDDLE_CENTER ]
       /\ closed_path pts
       /\ In (x, y) pts /\ In (x + w, y) pts
       /\ In (x + w, y + h) pts /\ In (x, y + h) pts.
Proof.
  intros Hw Hh. split.
  - emits add_equipment. each all_inside.
  - emits add_equipment. exists
      [ (x, y); (x + w, y); (x + w, y + h); (x, y + h); (x, y) ].
    do 3 eexists. exists (y + h / 2 + 2). split.
    + replace (y + h / 2 + 2 - 6) with (y + h / 2 - 4) by lra. reflexivity.
    + split; [reflexivity|]. repeat split; corner.
Qed.

Lemma equipment_within_witness :
  Forall (within (40, 640) (40 + 35, 640 + 20))
         (add_equipment 40 640 35 20 "UPS-A1" "400kVA" YELLOW false []).
Proof.
  apply (equipment_within 40 640 35 20 "UPS-A1" "400kVA" YELLOW false); lra.
Defined.

(** X7.  The circuit-breaker symbol is a closed outline 8 wide and 4 high
    centred on the point given, with the label anchored at that point; what
    it draws lies within that box wherever it is placed. *)
Theorem cb_symbol_box (x y : R) (label : string) (col : Z) :
  Forall (within (x - 4, y - 2) (x + 4, y + 2)) (add_cb_symbol x y label col [])
  /\ exists pts a la,
       add_cb_symbol x y label col [] =
         [ LWPolyline pts a; Text label la (x, y) MIDDLE_CENTER ]
       /\ closed_path pts
       /\ In (x - 4, y - 4 / 2) pts /\ In (x + 4, y + 4 / 2) pts.
Proof.
  split.
  - emits add_cb_symbol. each all_inside.
  - emits add_cb_symbol. do 3 eexists. split; [reflexivity|].
    split; [reflexivity|]. split; corner.
Qed.

(** X8.  For a positive radius the transformer symbol is two circles of that
    radius on one vertical line whose centres are apart by less than the sum
    of the radii, so the circles overlap without coinciding; the label is
    anchored to the right of both. *)
Theorem transformer_circles_overlap (cx cy radius : R) (label : string)
  (col : Z) (msp : modelspace) :
  0 < radius ->
  exists y1 y2 a1 a2 la lx,
    add_transformer_symbol cx cy radius label col msp =
      msp ++ [ Circle (cx, y1) radius a1; Circle (cx, y2) radius a2;
               Text label la (lx, cy) MIDDLE_LEFT ]
    /\ 0 < y1 - y2 < radius + radius
    /\ y1 - cy = cy - y2
    /\ cx + radius < lx.
Proof.
  intro Hr. emits add_transformer_symbol. do 6 eexists.
  split; [reflexivity|]. repeat split; lra.
Qed.

Lemma transformer_circles_overlap_witness :
  exists y1 y2 a1 a2 la lx,
    add_transformer_symbol 100 200 10 "TX-A" WHITE [] =
      [] ++ [ Circle (100, y1) 10 a1; Circle (100, y2) 10 a2;
              Text "TX-A" la (lx, 200) MIDDLE_LEFT ]
    /\ 0 < y1 - y2 < 10 + 10
    /\ y1 - 200 = 200 - y2
    /\ 100 + 10 < lx.
Proof. apply (transformer_circles_overlap 100 200 10 "TX-A" WHITE []). lra. Defined.

(** X9.  For a positive radius the generator symbol is a circle with the
    letter G anchored at its centre, the letter lower than the circle's
    diameter, and below the circle the label and, 6 further down, the tag. *)
Theorem generator_symbol_layout (cx cy radius : R) (label tag : string)
  (col : Z) (msp : modelspace) :
  0 < radius ->
  exists a hG y1 y2 la ta,
    add_generator_symbol cx cy radius label tag col msp =
      msp ++ [ Circle (cx, cy) radius a;
               Text "G" (text_attribs hG col (Some "TITLE")) (cx, cy)
                    MIDDLE_CENTER;
               Text label la (cx, y1) MIDDLE_CENTER;
               Text tag ta (cx, y2) MIDDLE_CENTER ]
    /\ 0 < hG < 2 * radius
    /\ y1 < cy - radius
    /\ y2 = y1 - 6.
Proof.
  intro Hr. emits add_generator_symbol. do 6 eexists.
  split; [reflexivity|]. repeat split; lra.
Qed.

Lemma generator_symbol_layout_witness :
  exists a hG y1 y2 la ta,
    add_generator_symbol 100 200 10 "GEN-A" "2MW" WHITE [] =
      [] ++ [ Circle (100, 200) 10 a;
              Text "G" (text_attribs hG WHITE (Some "TITLE")) (100, 200)
                   MIDDLE_CENTER;
              Text "GEN-A" la (100, y1) MIDDLE_CENTER;
              Text "2MW" ta (100, y2) MIDDLE_CENTER ]
    /\ 0 < hG < 2 * 10
    /\ y1 < 200 - 10
    /\ y2 = y1 - 6.
Proof. apply (generator_symbol_layout 100 200 10 "GEN-A" "2MW" WHITE []). lra. Defined.

(** X10.  Wherever the title block is placed and whatever its texts, all it
    draws (frame, dividers, text anchors) lies within its 570 by 140 frame,
    and the frame is a closed path. *)
Theorem title_block_within_frame (dwg_no t1 t2 std : string) (x_off y_off : R) :
  Forall (within (x_off, y_off) (x_off + 570, y_off + 140))
         (add_title_block dwg_no t1 t2 std x_off y_off [])
  /\ exists pts a rest,
       add_title_block dwg_no t1 t2 std x_off y_off [] = LWPolyline pts a :: rest
       /\ closed_path pts
       /\ In (x_off, y_off) pts /\ In (x_off + 570, y_off + 140) pts.
Proof.
  split.
  - emits add_title_block. each all_inside.
  - emits add_title_block. do 3 eexists. split; [reflexivity|].
    split; [reflexivity|]. split; corner.
Qed.

(** X11.  The title block's layout does not depend on its texts: two title
    blocks at the same offset differ at most in the strings of their text
    entities; positions, heights, colours, styles and alignments agree,
    entity by entity. *)
Theorem title_block_layout_fixed (d t1 t2 s d' t1' t2' s' : string)
  (x_off y_off : R) :
  map layout (add_title_block d t1 t2 s x_off y_off []) =
  map layout (add_title_block d' t1' t2' s' x_off y_off []).
Proof. emits add_title_block. reflexivity. Qed.

End DxfGeometry.

Module DxfRackRows.
Import Dxf DxfSymbols.

Ltac halves x :=
  pose proof (Nat.div_mod_eq x 2);
  pose proof (Nat.mod_upper_bound x 2 ltac:(discriminate)).

(** One turn of the loop: the row outline, the row text, and between rows
    one aisle label, cold after an even row and hot after an odd one. *)
Lemma turn_shape (n i : nat) (label : string) :
  exists pts a s ta p aisle,
    rack_rows_turn n (i, label) [] =
      LWPolyline pts a :: Text ("ROW " ++ s) ta p MIDDLE_CENTER :: aisle
    /\ ((i mod 2 = 0 /\ i < n - 1
         /\ exists a' p', aisle = [ Text "COLD AISLE" a' p' LEFT ])
        \/ (i mod 2 = 1 /\ i < n - 1
            /\ exists a' p', aisle = [ Text "HOT AISLE (CONTAINED)" a' p' LEFT ])
        \/ (n - 1 <= i /\ aisle = []))%nat.
Proof.
  unfold rack_rows_turn.
  destruct ((i mod 2 =? 0) && (i <? n - 1))%nat%bool eqn:E1;
    [|destruct ((i mod 2 =? 1) && (i <? n - 1))%nat%bool eqn:E2];
    run_steps; do 6 eexists; (split; [reflexivity|]).
  - apply andb_true_iff in E1 as [Hm Hl].
    apply Nat.eqb_eq in Hm. apply Nat.ltb_lt in Hl.
    left. split; [exact Hm|]. split; [exact Hl|]. do 2 eexists. reflexivity.
  - apply andb_true_iff in E2 as [Hm Hl].
    apply Nat.eqb_eq in Hm. apply Nat.ltb_lt in Hl.
    right; left. split; [exact Hm|]. split; [exact Hl|].
    do 2 eexists. reflexivity.
  - right; right. split; [|reflexivity].
    apply andb_false_iff in E1. apply andb_false_iff in E2.
    halves i.
    destruct E1 as [E1|E1], E2 as [E2|E2];
      try apply Nat.eqb_neq in E1; try apply Nat.eqb_neq in E2;
      try apply Nat.ltb_ge in E1; try apply Nat.ltb_ge in E2; lia.
Qed.

Lemma count_text_app s l1 l2 :
  count_text s (l1 ++ l2) = (count_text s l1 + count_text s l2)%nat.
Proof. unfold count_text. now rewrite filter_app, length_app. Qed.

Lemma turns_counted (n k : nat) (xs : list string) :
  (k + List.length xs = n)%nat ->
  let added := flat_map (fun e => rack_rows_turn n e []) (enumerate_from k xs) in
  (List.length added = 3 * List.length xs - 1
   /\ count_text "COLD AISLE" added = n / 2 - (k + 1) / 2
   /\ count_text "HOT AISLE (CONTAINED)" added = (n - 1) / 2 - k / 2)%nat.
Proof.
  cbv zeta. revert k. induction xs as [|x rest IH]; intros k Hn.
  - cbn [enumerate_from flat_map List.length count_text filter] in *.
    halves n. halves (k + 1)%nat. halves (n - 1)%nat. halves k.
    repeat split; lia.
  - cbn [enumerate_from flat_map List.length] in *.
    destruct (IH (S k) ltac:(lia)) as (IHl & IHc & IHh).
    rewrite length_app, !count_text_app, IHl, IHc, IHh.
    destruct (turn_shape n k x) as (pts & a & s & ta & p & aisle & -> & Hc).
    halves n. halves (S k + 1)%nat. halves (k + 1)%nat. halves (n - 1)%nat.
    halves k. halves (S k).
    destruct Hc as [(Hm & Hl & a' & p' & ->)|[(Hm & Hl & a' & p' & ->)|(Hl & ->)]];
      cbn [List.length count_text filter is_text String.eqb append Ascii.eqb
           Bool.eqb andb];
      repeat split; lia.
Qed.

(** X12.  For any list of N row labels the rack-row loop only appends, and
    what it appends is 3 N - 1 entities (nothing for N = 0): an outline and a
    text for each row and one aisle label after each row but the last.  Of
    the aisle labels, N / 2 read COLD AISLE and (N - 1) / 2 read
    HOT AISLE (CONTAINED), divisions rounding down. *)
Theorem rack_rows_counts (labels : list string) (msp : modelspace) :
  exists added,
    rack_rows labels msp = msp ++ added
    /\ (List.length added = 3 * List.length labels - 1
        /\ count_text "COLD AISLE" added = List.length labels / 2
        /\ count_text "HOT AISLE (CONTAINED)" added
           = (List.length labels - 1) / 2)%nat.
Proof.
  eexists. split; [apply rack_rows_emits|].
  destruct (turns_counted (List.length labels) 0 labels eq_refl)
    as (Hl & Hc & Hh).
  unfold enumerate. rewrite Hl, Hc, Hh.
  replace ((0 + 1) / 2)%nat with 0%nat by reflexivity.
  replace (0 / 2)%nat with 0%nat by reflexivity.
  repeat split; lia.
Qed.

(** X13.  With at most seven row labels, all the rack-row loop draws (row
    outlines, row texts and aisle labels) lies within the box of the data
    hall, (140, 320) to (520, 700), in which the floor plan places it. *)
Theorem rack_rows_within_data_hall (labels : list string) :
  (List.length labels <= 7)%nat ->
  Forall (within (140, 320) (140 + 380, 320 + 380)) (rack_rows labels []).
Proof.
  intro Hn. rewrite rack_rows_emits. cbn [app].
  apply Forall_flat_map, Forall_forall. intros [i label] Hin.
  unfold enumerate in Hin. apply in_enumerate_from in Hin.
  assert (Hi : (i <= 6)%nat) by lia. apply le_INR in Hi.
  assert (H6 : INR 6 = 6) by (simpl; lra). rewrite H6 in Hi.
  pose proof (pos_INR i) as H0.
  unfold rack_rows_turn.
  destruct ((i mod 2 =? 0) && (i <? List.length labels - 1))%nat%bool;
    [|destruct ((i mod 2 =? 1) && (i <? List.length labels - 1))%nat%bool];
    run_steps;
    repeat (apply Forall_cons;
            [unfold within, entity_points; cbn [fst snd];
             repeat (apply Forall_cons; [unfold in_box; cbn [fst snd]; lra|]);
             apply Forall_nil|]);
    apply Forall_nil.
Qed.

Lemma rack_rows_within_data_hall_witness :
  Forall (within (140, 320) (140 + 380, 320 + 380))
         (rack_rows [ "A"; "B"; "C"; "D"; "E"; "F" ] []).
Proof.
  apply (rack_rows_within_data_hall [ "A"; "B"; "C"; "D"; "E"; "F" ]).
  cbn [List.length]. lia.
Defined.

End DxfRackRows.

Module DxfSheets.
Import Dxf DxfSymbols.

Lemma title_block_appends dwg_no t1 t2 std x y :
  appends_only (add_title_block dwg_no t1 t2 std x y).
Proof. intro msp. emits add_title_block. reflexivity. Qed.

Lemma border_first (w h : R) (msp : modelspace) :
  exists rest, add_border w h msp = msp ++ add_border w h [] ++ rest.
Proof. exists []. emits add_border. reflexivity. Qed.

Lemma step_after (f g : step) (msp first : modelspace) :
  appends_only g ->
  (exists rest, f msp = msp ++ first ++ rest) ->
  exists rest, seq_step f g msp = msp ++ first ++ rest.
Proof.
  intros Hg [r Hr]. unfold seq_step. rewrite Hg, Hr. exists (r ++ g []).
  now rewrite <- !app_assoc.
Qed.

Ltac sheet_steps :=
  repeat match goal with
         | |- exists _, seq_step _ (add_entities _) _ = _ =>
             apply step_after; [apply Batch.add_entities_appends|]
         | |- exists _, seq_step _ (add_text _ _ _ _) _ = _ =>
             apply step_after; [apply Batch.add_text_appends|]
         | |- exists _, seq_step _ (add_line _ _ _) _ = _ =>
             apply step_after; [apply Batch.add_line_appends|]
         | |- exists _, seq_step _ (floor_plan_legend _ _ _) _ = _ =>
             apply step_after; [apply Batch.floor_plan_legend_appends|]
         | |- exists _, seq_step _ (sheet_legend _ _ _) _ = _ =>
             apply step_after; [apply Batch.sheet_legend_appends|]
         | |- exists _, seq_step _ (for_each _ _) _ = _ =>
             apply step_after;
             [apply Batch.for_each_appends; intros [i s];
              apply Batch.add_text_appends|]
         | |- exists _, seq_step _ (add_title_block _ _ _ _ _ _) _ = _ =>
             apply step_after; [apply title_block_appends|]
         end;
  apply border_first.

Ltac sheet_set_up blank :=
  cbv zeta; cbn [fst snd draw_on units styles linetypes entities];
  destruct (DxfSetup.setup_doc_tables blank) as (HU & HT & HN & HD & HDD);
  split; [reflexivity|];
  split; [exact HU|]; split; [exact HT|]; split; [exact HN|];
  split; [exact HD|]; split; [exact HDD|];
  rewrite Batch.setup_doc_entities; sheet_steps.

(** X14.  Whatever the new document holds and whatever the literal scripts
    draw, each of the five sheets is saved under build/dxf/ as a document in
    millimetres with the styles TITLE and NOTES and the line types DASHED
    and DASHDOT registered, and its model space is the new document's with
    entities appended, the first of them the two border rectangles of the
    1180 by 840 sheet. *)
Theorem sheets_set_up (blank : document) (scripts : sheet_scripts) :
  Forall (fun file =>
            prefix "build/dxf/" (fst file) = true
            /\ units (snd file) = MM
            /\ has_entry "TITLE" (styles (snd file)) = true
            /\ has_entry "NOTES" (styles (snd file)) = true
            /\ has_entry "DASHED" (linetypes (snd file)) = true
            /\ has_entry "DASHDOT" (linetypes (snd file)) = true
            /\ exists rest,
                 entities (snd file) =
                 entities blank ++ add_border 1180 840 [] ++ rest)
         (main blank scripts).
Proof.
  unfold main.
  apply Forall_cons. { unfold generate_floor_plan. sheet_set_up blank. }
  apply Forall_cons. { unfold generate_electrical. sheet_set_up blank. }
  apply Forall_cons. { unfold generate_network. sheet_set_up blank. }
  apply Forall_cons. { unfold generate_cooling. sheet_set_up blank. }
  apply Forall_cons. { unfold generate_fire. sheet_set_up blank. }
  apply Forall_nil.
Qed.

End DxfSheets.

(** * Further properties of the PDF renderer *)

Module PdfState.
Import Pdf PdfFacts.

Lemma exec_frame_free (i : instr) (c : canvas) :
  touches_frame i = false ->
  saved (exec i c) = saved c
  /\ ctm (gs (exec i c)) = ctm (gs c)
  /\ exists l, page (exec i c) = page c ++ l
               /\ Forall (fun m => m_ctm m = ctm (gs c)) l.
Proof.
  intro H. destruct i; try discriminate H;
    cbn [exec set_gs paint paint_text saved gs ctm page];
    (split; [reflexivity|]); (split; [reflexivity|]);
    first [ exists []; split; [now rewrite app_nil_r | apply Forall_nil]
          | eexists; split; [reflexivity|];
            apply Forall_cons; [reflexivity | apply Forall_nil] ].
Qed.

Lemma run_frame_free (p : program) (c : canvas) :
  frame_free p = true ->
  saved (run p c) = saved c
  /\ ctm (gs (run p c)) = ctm (gs c)
  /\ exists l, page (run p c) = page c ++ l
               /\ Forall (fun m => m_ctm m = ctm (gs c)) l.
Proof.
  revert c. induction p as [|i p IH]; intros c H.
  - cbn [run]. repeat split. exists []. split; [now rewrite app_nil_r|].
    apply Forall_nil.
  - cbn [frame_free forallb] in H. apply andb_true_iff in H as [Hi Hp].
    apply negb_true_iff in Hi. cbn [run].
    destruct (exec_frame_free i c Hi) as (S1 & T1 & l1 & P1 & F1).
    destruct (IH (exec i c) Hp) as (S2 & T2 & l2 & P2 & F2).
    split; [congruence|]. split; [congruence|].
    exists (l1 ++ l2). split; [now rewrite P2, P1, app_assoc|].
    apply Forall_app. split; [exact F1|].
    rewrite T1 in F2. exact F2.
Qed.

Lemma helper_frame_free (h : helper_call) : frame_free (program_of h) = true.
Proof.
  destruct h; cbn [program_of]; try reflexivity.
  - unfold draw_room. destruct (truthy ref_id); reflexivity.
  - by_shape shape; reflexivity.
Qed.

(** X15.  No helper of the toolkit touches the state stack or the transform:
    after any helper call, with any arguments and on any canvas, the saved
    states and the transform are as before, nothing drawn before is lost,
    and every mark the call adds is drawn in the transform that was in
    force when it was called. *)
Theorem helpers_balanced (h : helper_call) (c : canvas) :
  let c' := run (program_of h) c in
  saved c' = saved c
  /\ ctm (gs c') = ctm (gs c)
  /\ exists added, page c' = page c ++ added
                   /\ Forall (fun m => m_ctm m = ctm (gs c)) added.
Proof. cbv zeta. apply run_frame_free, helper_frame_free. Qed.

(** X16.  The block that writes an aisle name turned by 90 degrees restores
    the graphics state: on any canvas it leaves colours, line width, dash
    pattern, font, transform and state stack exactly as it found them, and
    adds one mark, the name in Helvetica 5 and the colour given, drawn at
    the local origin of the transform in force followed by the translation
    to the point given and the rotation. *)
Theorem aisle_name_restores (x y : R) (col : color) (name : string) (c : canvas) :
  run (aisle_name x y col name) c =
  mkCanvas (gs c) (saved c)
    (page c ++
     [ mkMark (GText AnchorCentre 0 0 name "Helvetica" 5) None (Some col)
              (ctm (gs c) ++ [ Translate x y; Rotate 90 ]) ]).
Proof.
  unfold aisle_name. run_program. destruct c as [g s p]. reflexivity.
Qed.

(** X17.  A legend entry whose shape is none of rect, line, dash, circle gets
    no swatch: the call paints the label alone, in black Helvetica 5.5, and
    leaves stroke colour, line width and dash pattern as they were. *)
Theorem legend_item_unknown_shape (x y : R) (col : color) (label shape : string)
  (c : canvas) :
  shape <> "rect" -> shape <> "line" -> shape <> "dash" -> shape <> "circle" ->
  let c' := run (draw_legend_item x y col label shape) c in
  page c' =
    page c ++
    [ mkMark (GText AnchorLeft (x + 6 * mm) (y + 0.5 * mm) label "Helvetica" 5.5)
             None (Some black) (ctm (gs c)) ]
  /\ strokeColor (gs c') = strokeColor (gs c)
  /\ lineWidth (gs c') = lineWidth (gs c)
  /\ dash (gs c') = dash (gs c).
Proof.
  intros Hr Hl Hd Hc. cbv zeta. unfold draw_legend_item.
  apply String.eqb_neq in Hr, Hl, Hd, Hc. rewrite Hr, Hl, Hd, Hc.
  run_program. repeat split.
Qed.

Lemma legend_item_unknown_shape_witness :
  page (run (draw_legend_item 0 0 C_HOT "Hot spot" "triangle") new_canvas) =
    page new_canvas ++
    [ mkMark (GText AnchorLeft (0 + 6 * mm) (0 + 0.5 * mm) "Hot spot"
                    "Helvetica" 5.5)
             None (Some black) (ctm (gs new_canvas)) ].
Proof.
  apply (legend_item_unknown_shape 0 0 C_HOT "Hot spot" "triangle" new_canvas);
    discriminate.
Defined.

End PdfState.

Module PdfDataHall.
Import Pdf PdfFacts.

Ltac lay_out :=
  unfold data_hall_racks, rack_row, aisle_name, draw_rack;
  cbn [flat_map seq app]; run_program.

Ltac each_mark tac := repeat (apply Forall_cons; [tac|]); apply Forall_nil.

Ltac to_mm :=
  unfold zone_height, d1_x, ca2_x, a2_x, hot_x, b1_x, ca1_x, a1_x, rack_gap,
         rack_h, rack_w, row_start_y, ca_w, dh_h, dh_w, dh_y, dh_x, bh, bw,
         oy, ox, DRW_H, DRW_W, DRW_TOP, DRW_RIGHT, DRW_BOTTOM, DRW_LEFT,
         BORDER, MARGIN, PAGE_H, PAGE_W in *.

(** X18.  On a canvas whose dash pattern is solid, the rack rows of the floor
    plan add 70 marks and leave state stack, transform and solid dash
    pattern as they were.  Every stroke among the marks is solid except on
    the unfilled containment rectangles, and every mark is drawn in the
    transform in force at the start except the aisle names, which are
    translated and turned by 90 degrees: neither the dash pattern of a
    containment zone nor the rotation of an aisle name reaches the racks
    drawn after it. *)
Theorem data_hall_racks_state (c : canvas) :
  dash (gs c) = Solid ->
  let c' := run data_hall_racks c in
  saved c' = saved c
  /\ ctm (gs c') = ctm (gs c)
  /\ dash (gs c') = Solid
  /\ exists added,
       page c' = page c ++ added
       /\ List.length added = 70%nat
       /\ Forall (fun m =>
                    solid_stroke m
                    \/ exists x y w h, m_geom m = GRect x y w h
                                       /\ m_fill m = None) added
       /\ Forall (fun m =>
                    m_ctm m = ctm (gs c)
                    \/ exists x y s f sz,
                         m_ctm m = ctm (gs c) ++ [ Translate x y; Rotate 90 ]
                         /\ m_geom m = GText AnchorCentre 0 0 s f sz) added.
Proof.
  intro Hs. cbv zeta. lay_out. rewrite Hs.
  split; [reflexivity|]. split; [reflexivity|]. split; [reflexivity|].
  eexists. split; [reflexivity|]. split; [reflexivity|]. split.
  - each_mark ltac:(first [ left; exact I
                          | left; reflexivity
                          | right; do 4 eexists; split; reflexivity ]).
  - each_mark ltac:(first [ left; reflexivity
                          | right; do 5 eexists; split; reflexivity ]).
Qed.

Lemma data_hall_racks_state_witness :
  dash (gs (run data_hall_racks new_canvas)) = Solid.
Proof. apply (data_hall_racks_state new_canvas). reflexivity. Defined.

Ltac mark_inside :=
  unfold within, mark_points;
  cbn [m_geom m_ctm map to_page fst snd INR];
  repeat (apply Forall_cons; [unfold in_box; cbn [fst snd]; lra|]);
  apply Forall_nil.

(** X19.  On the page, everything the rack rows draw lies within the
    rectangle of the data hall: the corners of the 32 racks and of the three
    containment zones, the anchors of the rack labels, and the anchors of the
    turned aisle names, taken through their translation and rotation. *)
Theorem data_hall_racks_within :
  Forall (within dh_x dh_y (dh_x + dh_w) (dh_y + dh_h))
         (page (run data_hall_racks new_canvas)).
Proof.
  lay_out. cbn [new_canvas page gs ctm initial_gstate app].
  assert (Hmm : 2.8 < mm < 2.9) by (unfold mm; lra).
  to_mm. each_mark mark_inside.
Qed.

End PdfDataHall.

Module PdfFrame.
Import Pdf PdfFacts.

Ltac each_mark tac := repeat (apply Forall_cons; [tac|]); apply Forall_nil.

Ltac to_mm :=
  unfold DRW_H, DRW_W, DRW_TOP, DRW_RIGHT, DRW_BOTTOM, DRW_LEFT,
         BORDER, MARGIN, PAGE_H, PAGE_W in *.

Ltac mark_inside :=
  unfold within, mark_points;
  cbn [m_geom m_ctm map to_page fst snd INR];
  repeat (apply Forall_cons; [unfold in_box; cbn [fst snd]; lra|]);
  apply Forall_nil.

(** X20.  Drawn in the page's own coordinates, the title block adds 24 marks
    that all lie within its panel, the strip 36 mm high on the inner border's
    lower edge: background, dividers and every text anchor, whatever the
    texts.  The panel ends below the drawable area. *)
Theorem pdf_title_block_panel
  (dwg_no title subtitle standard rev scale : string) (c : canvas) :
  ctm (gs c) = [] ->
  exists added,
    page (run (draw_title_block dwg_no title subtitle standard rev scale) c)
      = page c ++ added
    /\ List.length added = 24%nat
    /\ Forall (within BORDER BORDER (PAGE_W - BORDER) (BORDER + 36 * mm)) added
    /\ BORDER + 36 * mm < DRW_BOTTOM.
Proof.
  intro Hc. unfold draw_title_block. run_program. rewrite Hc.
  eexists. split; [reflexivity|]. split; [reflexivity|].
  assert (Hmm : 2.8 < mm < 2.9) by (unfold mm; lra).
  to_mm. split; [each_mark mark_inside | lra].
Qed.

Lemma pdf_title_block_panel_witness :
  BORDER + 36 * mm < DRW_BOTTOM.
Proof.
  destruct (pdf_title_block_panel "SAT-DC-FP-001" "DATA CENTER FLOOR PLAN"
              "16-Rack Layout" "TIA-942" "A" "NTS" new_canvas eq_refl)
    as (added & _ & _ & _ & H).
  exact H.
Defined.

(** X21.  The layout of the PDF title block does not depend on its texts: on
    the same canvas two title blocks differ at most in the strings drawn;
    shapes, positions, fonts, sizes, colours and line widths agree, mark by
    mark. *)
Theorem pdf_title_block_layout_fixed
  (d t s st r sc d' t' s' st' r' sc' : string) (c : canvas) :
  map layout (page (run (draw_title_block d t s st r sc) c)) =
  map layout (page (run (draw_title_block d' t' s' st' r' sc') c)).
Proof.
  unfold draw_title_block. run_program. rewrite !map_app. reflexivity.
Qed.

(** X22.  The grid references are 36 centred letters and digits in grey
    Helvetica 6.  Each column letter is anchored between the left and right
    edge of the drawable area, 2 mm above its top edge or 6 mm below its
    bottom edge; each row digit is anchored (2 points under a height) between
    the bottom and top edge, 5 mm left of the left edge or 5 mm right of the
    right edge.  The lower letters thereby fall inside the title block panel
    and the digits outside the outer border line. *)
Theorem grid_refs_placement (c : canvas) :
  exists added,
    page (run draw_grid_refs c) = page c ++ added
    /\ List.length added = 36%nat
    /\ Forall (fun m =>
                 exists x y s,
                   m = mkMark (GText AnchorCentre x y s "Helvetica" 6)
                              None (Some C_GRID) (ctm (gs c))
                   /\ ((DRW_LEFT < x < DRW_RIGHT
                        /\ (y = DRW_TOP + 2 * mm \/ y = DRW_BOTTOM - 6 * mm))
                       \/ (DRW_BOTTOM < y + 2 < DRW_TOP
                           /\ (x = DRW_LEFT - 5 * mm
                               \/ x = DRW_RIGHT + 5 * mm)))) added
    /\ BORDER < DRW_BOTTOM - 6 * mm < BORDER + 36 * mm
    /\ DRW_LEFT - 5 * mm < MARGIN
    /\ PAGE_W - MARGIN < DRW_RIGHT + 5 * mm.
Proof.
  unfold draw_grid_refs.
  cbn [chars enumerate enumerate_from flat_map app List.length].
  run_program.
  eexists. split; [reflexivity|]. split; [reflexivity|].
  assert (Hmm : 2.8 < mm < 2.9) by (unfold mm; lra).
  assert (H10 : INR 10 = 10) by (simpl; lra).
  assert (H8 : INR 8 = 8) by (simpl; lra).
  rewrite H10, H8. cbn [INR]. to_mm.
  split; [|lra].
  each_mark ltac:(do 3 eexists; split; [reflexivity|];
                  first [ left; split; [lra | first [left; reflexivity
                                                    | right; reflexivity]]
                        | right; split; [lra | first [left; reflexivity
                                                     | right; reflexivity]] ]).
Qed.

(** X23.  A room of non-negative width and at least 12 points high, drawn in
    the page's own coordinates, holds all it draws: the corners of its
    rectangle and the anchors of its label and, when one is given, of its
    reference line lie within the rectangle given. *)
Theorem room_within (x y w h : R) (label : string) (ref_id : option string)
  (fill text_color : color) (c : canvas) :
  0 <= w -> 12 <= h -> ctm (gs c) = [] ->
  exists added,
    page (run (draw_room x y w h label ref_id fill text_color) c)
      = page c ++ added
    /\ Forall (within x y (x + w) (y + h)) added.
Proof.
  intros Hw Hh Hc. unfold draw_room.
  destruct (truthy ref_id); run_program; rewrite Hc;
    (eexists; split; [reflexivity|]); each_mark mark_inside.
Qed.

Lemma room_within_witness :
  exists added,
    page (run (draw_room 0 0 100 50 "UPS ROOM" (Some "R-04") C_WALL_FILL C_WALL)
              new_canvas)
      = page new_canvas ++ added
    /\ Forall (within 0 0 (0 + 100) (0 + 50)) added.
Proof.
  apply (room_within 0 0 100 50 "UPS ROOM" (Some "R-04") C_WALL_FILL C_WALL
           new_canvas); [lra | lra | reflexivity].
Defined.

(** X24.  Whatever the scripts and the script directory, the five PDF
    documents carry the author and subject of the project and, as title, the
    file name without its extension and with every underscore turned into a
    space. *)
Theorem pdf_document_info (scripts : sheet_scripts) (script_dir : string) :
  map (fun f => (doc_title (snd f), doc_author (snd f), doc_subject (snd f)))
      (main scripts script_dir) =
  map (fun t => (t, "Satsiber Engineering",
                 "Uptime Tier III Design Certification"))
      [ "SAT-DC-FP-001 Floor-Plan"; "SAT-DC-EL-001 Electrical-SLD";
        "SAT-DC-NT-001 Network-Topology"; "SAT-DC-CL-001 Cooling-System";
        "SAT-DC-FS-001 Fire-Suppression" ].
Proof. reflexivity. Qed.

End PdfFrame.

Module PdfArrow.
Import Pdf PdfFacts.

Lemma hypot_pos (t : R) : 0 < sqrt (1 + t²).
Proof. apply sqrt_lt_R0. pose proof (Rle_0_sqr t). lra. Qed.

Lemma norm_factor (x y : R) :
  x <> 0 -> sqrt (x * x + y * y) = Rabs x * sqrt (1 + (y / x)²).
Proof.
  intro Hx.
  replace (x * x + y * y) with (x² * (1 + (y / x)²))
    by (unfold Rsqr; field; exact Hx).
  rewrite sqrt_mult.
  - now rewrite sqrt_Rsqr_abs.
  - apply Rle_0_sqr.
  - pose proof (Rle_0_sqr (y / x)). lra.
Qed.

(** [atan2] gives the direction of the point: with [d] the distance of
    [(x, y)] from the origin, the point is [d] along the angle. *)
Lemma atan2_polar (x y : R) :
  x <> 0 \/ y <> 0 ->
  sqrt (x * x + y * y) * cos (atan2 y x) = x
  /\ sqrt (x * x + y * y) * sin (atan2 y x) = y.
Proof.
  intro H. unfold atan2.
  pose proof (hypot_pos (y / x)) as Hs.
  destruct (Rlt_dec 0 x) as [Hx|Hx].
  - rewrite norm_factor by lra. rewrite Rabs_right by lra.
    rewrite cos_atan, sin_atan. split; field; repeat split; lra.
  - destruct (Rlt_dec x 0) as [Hx'|Hx'].
    + rewrite norm_factor by lra. rewrite Rabs_left by lra.
      destruct (Rle_dec 0 y) as [Hy|Hy].
      * rewrite neg_cos, neg_sin, cos_atan, sin_atan.
        split; field; repeat split; lra.
      * rewrite cos_minus, sin_minus, cos_PI, sin_PI, cos_atan, sin_atan.
        split; field; repeat split; lra.
    + assert (x = 0) by lra. subst x.
      replace (0 * 0 + y * y) with (y * y) by ring.
      destruct (Rlt_dec 0 y) as [Hy|Hy].
      * rewrite sqrt_square by lra. rewrite cos_PI2, sin_PI2. split; ring.
      * destruct (Rlt_dec y 0) as [Hy'|Hy'].
        -- replace (y * y) with ((- y) * (- y)) by ring.
           rewrite sqrt_square by lra.
           rewrite cos_neg, sin_neg, cos_PI2, sin_PI2. split; ring.
        -- destruct H as [H|H]; [now elim H | elim H; lra].
Qed.

(** X25.  For distinct end points the arrow head sits on the shaft: the
    midpoint of the head's base lies on the line through the end points,
    [3 mm * cos 0.3] behind the tip on the side of the start point, and the
    base is perpendicular to the shaft, so the head is symmetric about the
    shaft and points the way the arrow runs. *)
Theorem arrow_head_on_shaft (x1 y1 x2 y2 : R) (col : color) (width : R)
  (c : canvas) :
  x1 <> x2 \/ y1 <> y2 ->
  let d := distance (x2, y2) (x1, y1) in
  let back := 3 * mm * cos 0.3 in
  exists line xa ya xb yb,
    page (run (draw_arrow x1 y1 x2 y2 col width) c) =
      page c ++
      [ line;
        mkMark (GPath [ (x2, y2); (xa, ya); (xb, yb) ] true) None (Some col)
               (ctm (gs c)) ]
    /\ 0 < d /\ 0 < back
    /\ d * ((xa + xb) / 2 - x2) = back * (x1 - x2)
    /\ d * ((ya + yb) / 2 - y2) = back * (y1 - y2)
    /\ (xa - xb) * (x2 - x1) + (ya - yb) * (y2 - y1) = 0.
Proof.
  intros Hne d back. unfold draw_arrow. run_program.
  do 5 eexists. split; [reflexivity|].
  assert (Hp : x2 - x1 <> 0 \/ y2 - y1 <> 0) by (destruct Hne; [left|right]; lra).
  destruct (atan2_polar (x2 - x1) (y2 - y1) Hp) as [Hx Hy].
  assert (Ed : d = sqrt ((x2 - x1) * (x2 - x1) + (y2 - y1) * (y2 - y1)))
    by reflexivity.
  rewrite <- Ed in Hx, Hy.
  assert (Hd : 0 < d).
  { rewrite Ed. apply sqrt_lt_R0. destruct Hp as [Hp|Hp]; nra. }
  assert (Hb : 0 < back).
  { unfold back. pose proof mm_pos. pose proof small_angle.
    assert (0 < cos 0.3) by (apply cos_gt_0; lra). nra. }
  split; [exact Hd|]. split; [exact Hb|].
  clear Ed. clearbody d.
  replace (x1 - x2) with (- (x2 - x1)) by ring.
  replace (y1 - y2) with (- (y2 - y1)) by ring.
  remember (atan2 (y2 - y1) (x2 - x1)) as theta eqn:Et. clear Et.
  remember (x2 - x1) as X eqn:EX. remember (y2 - y1) as Y eqn:EY.
  clear EX EY Hp.
  rewrite cos_minus, cos_plus, sin_minus, sin_plus. unfold back.
  rewrite <- Hx, <- Hy. repeat split; field.
Qed.

Lemma arrow_head_on_shaft_witness :
  0 < distance (10, 0) (0, 0).
Proof.
  destruct (arrow_head_on_shaft 0 0 10 0 black 0.8 new_canvas)
    as (line & xa & ya & xb & yb & _ & H & _).
  - left. lra.
  - exact H.
Defined.

End PdfArrow.
